(** * NewsLynx core: events and content API views

    A shallow embedding of the view functions of
    [newslynx/views/api/events_api.py] and
    [newslynx/views/api/content_api.py], over the relational schema they
    query ([newslynx/models/content_item.py] and the association tables),
    and theorems about event approval, deletion, the association endpoints
    and the filter composers.

    The database is a record of tables (lists of rows).  A request handler
    runs in a small state-and-exception monad over a SQLAlchemy-like
    session: attribute writes and relationship changes go to the pending
    state, [commit] copies the pending state to the committed one, and an
    exception leaves the handler before anything later runs.  What a
    request persists is the committed state it ends with. *)

From stdpp Require Import gmap strings list pretty.

Local Open Scope string_scope.
Local Open Scope Z_scope.

(** ** Values, rows and tables *)

(** A column value or a JSON scalar of a request body: [None], an integer,
    a string, or a timestamp (seconds). *)
Inductive value :=
  | VNone
  | VInt (n : Z)
  | VStr (s : string)
  | VDate (t : Z).

Global Instance value_eq_dec : EqDecision value.
Proof. solve_decision. Defined.

(** Exceptions the views raise.  [RequestError] and [NotFoundError] are the
    application's own (rendered as structured JSON errors); the others are
    Python's built-in ones. *)
Inductive Error :=
  | RequestError (msg : string)
  | NotFoundError (msg : string)
  | KeyError (key : Z)
  | NameError (name : string)
  | AttributeError (name : string).

Global Instance Error_eq_dec : EqDecision Error.
Proof. solve_decision. Defined.

Inductive outcome (A : Type) :=
  | Return (a : A)
  | Raise (e : Error).
Global Arguments Return {A} a.
Global Arguments Raise {A} e.

Global Instance outcome_ret : MRet outcome := λ A a, Return a.
Global Instance outcome_bind : MBind outcome := λ A B f m,
  match m with
  | Return a => f a
  | Raise e => Raise e
  end.
Global Instance outcome_fmap : FMap outcome := λ A B f m,
  match m with
  | Return a => Return (f a)
  | Raise e => Raise e
  end.

Module Tag.
Record t := mk {
  id : Z;
  organization_id : Z;
  type : string;
  category : string;
  level : string
}.
Global Instance Tag_eq_dec : EqDecision t.
Proof. solve_decision. Defined.
End Tag.

Module Thing.
Record t := mk {
  id : Z;
  organization_id : Z
}.
Global Instance Thing_eq_dec : EqDecision t.
Proof. solve_decision. Defined.
End Thing.

(** A recipe with the names of its task and of its sous chef
    ([Recipe.task.has(Task.name ...)], [Recipe.sous_chef.has(SousChef.name ...)]). *)
Module Recipe.
Record t := mk {
  id : Z;
  task : option string;
  sous_chef : option string
}.
End Recipe.

(** The columns of [ContentItem] (models/content_item.py); every column but
    the primary key is nullable. *)
Module ContentItem.
Record t := mk {
  id : Z;
  org_id : option Z;
  recipe_id : option Z;
  type : option string;
  provenance : option string;
  url : option string;
  domain : option string;
  created : option Z;
  updated : option Z;
  site_name : option string;
  favicon : option string;
  img_url : option string;
  title : option string;
  description : option string;
  body : option string;
  meta : option string
}.
Global Instance ContentItem_eq_dec : EqDecision t.
Proof. solve_decision. Defined.
End ContentItem.

(** An [Event] object is its mapping from column names to values: the
    update view writes columns by name ([setattr(e, k, v)]). *)
Abbreviation Event := (gmap string value).

(** [e.<column>]: an attribute that was never set reads as [None]. *)
Definition attr (e : Event) (k : string) : value := default VNone (e !! k).

(** The tables.  An association table is a list of pairs, in the order of
    the comment: [events_tags] holds (event_id, tag_id), [things_events]
    (thing_id, event_id), [content_items_events] (content_item_id, event_id)
    and [content_items_tags] (content_item_id, tag_id). *)
Record Db := mkDb {
  events : list Event;
  tags : list Tag.t;
  things : list Thing.t;
  recipes : list Recipe.t;
  content : list ContentItem.t;
  events_tags : list (Z * Z);
  things_events : list (Z * Z);
  content_items_events : list (Z * Z);
  content_items_tags : list (Z * Z)
}.

(** ** SQL expressions

    A comparison with NULL is unknown and [filter] keeps the rows whose
    condition is true, so a condition is an [option bool]. *)

Definition sql_not (c : option bool) : option bool := negb <$> c.

Definition is_true (c : option bool) : bool := default false c.

(** [column.in_(ids)] on an integer column held as a [value]. *)
Definition in_ (v : value) (ids : list Z) : option bool :=
  match v with
  | VNone => None
  | _ => Some (bool_decide (v ∈ VInt <$> ids))
  end.

(** [column.in_(xs)] and [column == x] on a nullable typed column. *)
Definition col_in {A} `{EqDecision A} (c : option A) (xs : list A) : option bool :=
  (λ x, bool_decide (x ∈ xs)) <$> c.

Definition col_eq {A} `{EqDecision A} (c : option A) (x : A) : option bool :=
  (λ y, bool_decide (y = x)) <$> c.

Definition col_ge (c : option Z) (x : Z) : option bool := (λ y, bool_decide (x ≤ y)) <$> c.
Definition col_le (c : option Z) (x : Z) : option bool := (λ y, bool_decide (y ≤ x)) <$> c.

(** [Event.created >= t] on a timestamp column held as a [value]. *)
Definition date_ge (v : value) (t : Z) : option bool :=
  match v with VDate y => Some (bool_decide (t ≤ y)) | _ => None end.
Definition date_le (v : value) (t : Z) : option bool :=
  match v with VDate y => Some (bool_decide (y ≤ t)) | _ => None end.

(** [Event.column == x]. *)
Definition val_eq (v x : value) : option bool :=
  match v with VNone => None | _ => Some (bool_decide (v = x)) end.

(** [q.filter(cond)] on the rows a query yields. *)
Definition where_ {A} (cond : A → option bool) (q : list A) : list A :=
  filter (λ r, is_true (cond r) = true) q.

(** [if c: q = q.filter(cond)]. *)
Definition filter_if {A} (c : bool) (cond : A → option bool) (q : list A) : list A :=
  if c then where_ cond q else q.

(** [if t: q = q.filter(cond t)] for an optional bound [t]. *)
Definition filter_some {A B} (t : option B) (cond : B → A → option bool)
    (q : list A) : list A :=
  match t with
  | Some t => where_ (cond t) q
  | None => q
  end.

(** Python truthiness of an optional string ([None] and [''] are false). *)
Definition truthy (s : option string) : bool :=
  match s with
  | None => false
  | Some s => negb (bool_decide (s = EmptyString))
  end.

(** ** Relationships *)

(** [e.tags]: the tags joined to the event through [events_tags]. *)
Definition Event_tags (db : Db) (event_id : Z) : list Tag.t :=
  r ← events_tags db;
  if bool_decide (r.1 = event_id)
  then filter (λ t, Tag.id t = r.2) (tags db)
  else [].

(** [e.things]: the things joined to the event through [things_events]. *)
Definition Event_things (db : Db) (event_id : Z) : list Thing.t :=
  r ← things_events db;
  if bool_decide (r.2 = event_id)
  then filter (λ t, Thing.id t = r.1) (things db)
  else [].

(** [e.tag_ids] and [e.thing_ids]. *)
Definition Event_tag_ids (db : Db) (event_id : Z) : list Z :=
  Tag.id <$> Event_tags db event_id.

Definition Event_thing_ids (db : Db) (event_id : Z) : list Z :=
  Thing.id <$> Event_things db event_id.

(** [c.tag_ids] of a content item ([ContentItem.tag_ids]). *)
Definition ContentItem_tag_ids (db : Db) (c : ContentItem.t) : list Z :=
  r ← content_items_tags db;
  if bool_decide (r.1 = ContentItem.id c)
  then Tag.id <$> filter (λ t, Tag.id t = r.2) (tags db)
  else [].

(** The ids of the events joined to a content item ([c.events]). *)
Definition ContentItem_event_ids (db : Db) (c : ContentItem.t) : list Z :=
  r ← content_items_events db;
  if bool_decide (r.1 = ContentItem.id c)
  then (λ _, r.2) <$> filter (λ e, attr e "id" = VInt r.2) (events db)
  else [].

(** ** The session *)

(** [committed] is what the database holds; [pending] is what the session
    sees: the committed rows with the changes made so far in the request. *)
Record Session := mkSession {
  committed : Db;
  pending : Db
}.

(** A request starts with a clean session over the database. *)
Definition begin (db : Db) : Session := mkSession db db.

Definition M (A : Type) : Type := Session → outcome A * Session.

Global Instance M_ret : MRet M := λ A a s, (Return a, s).
Global Instance M_bind : MBind M := λ A B f m s,
  match m s with
  | (Return a, s') => f a s'
  | (Raise e, s') => (Raise e, s')
  end.

Definition raise {A} (e : Error) : M A := λ s, (Raise e, s).

(** Read through the session. *)
Definition query {A} (f : Db → A) : M A := λ s, (Return (f (pending s)), s).

(** Change the pending state. *)
Definition modify (f : Db → Db) : M unit :=
  λ s, (Return (), mkSession (committed s) (f (pending s))).

(** [db.session.commit()]. *)
Definition commit : M unit :=
  λ s, (Return (), mkSession (pending s) (pending s)).

(** A whole request: the response, and the database it leaves. *)
Definition run {A} (m : M A) (db : Db) : outcome A * Db :=
  let '(r, s) := m (begin db) in (r, committed s).

(** [if c: body] for a statement. *)
Definition when (c : bool) (body : M unit) : M unit :=
  if c then body else mret ().

Definition set_events (f : list Event → list Event) (db : Db) : Db :=
  mkDb (f (events db)) (tags db) (things db) (recipes db) (content db)
       (events_tags db) (things_events db)
       (content_items_events db) (content_items_tags db).

Definition set_events_tags (f : list (Z * Z) → list (Z * Z)) (db : Db) : Db :=
  mkDb (events db) (tags db) (things db) (recipes db) (content db)
       (f (events_tags db)) (things_events db)
       (content_items_events db) (content_items_tags db).

Definition set_things_events (f : list (Z * Z) → list (Z * Z)) (db : Db) : Db :=
  mkDb (events db) (tags db) (things db) (recipes db) (content db)
       (events_tags db) (f (things_events db))
       (content_items_events db) (content_items_tags db).

(** [l.remove(x)]: drop the first element equal to [x]. *)
Fixpoint list_remove_first {A} `{EqDecision A} (x : A) (l : list A) : list A :=
  match l with
  | [] => []
  | y :: l' => if decide (y = x) then l' else y :: list_remove_first x l'
  end.

(** The double-quote character, as a string. *)
Definition dquote : string :=
  String (Ascii.Ascii false true false false false true false false) EmptyString.

(** ['{}'.format(ids)] for a list of integers. *)
Definition repr_list (ids : list Z) : string :=
  "[" +:+ String.concat ", " (pretty <$> ids) +:+ "]".

(** ** events_api.py *)

Module EventsApi.

(** *** apply_event_filters *)

(** The keyword arguments [apply_event_filters] reads. *)
Record Kw := mkKw {
  org : Z;
  search_query : option string;
  status : string;
  created_after : option Z;
  created_before : option Z;
  updated_after : option Z;
  updated_before : option Z;
  include_recipes : list Z;
  exclude_recipes : list Z;
  include_tags : list Z;
  exclude_tags : list Z;
  include_things : list Z;
  exclude_things : list Z;
  include_tasks : list string;
  exclude_tasks : list string
}.

(** The event's id as the association tables hold it. *)
Definition has_id (e : Event) (n : Z) : bool := bool_decide (attr e "id" = VInt n).

(** [Event.tags.any(Tag.id.in_(ids))]: some row of [events_tags] joins the
    event to a tag whose id is in [ids]. *)
Definition tags_any (db : Db) (ids : list Z) (e : Event) : option bool :=
  Some (bool_decide (Exists (λ r : Z * Z,
    attr e "id" = VInt r.1 ∧ r.2 ∈ ids ∧ r.2 ∈ Tag.id <$> tags db) (events_tags db))).

(** [Event.things.any(Thing.id.in_(ids))]. *)
Definition things_any (db : Db) (ids : list Z) (e : Event) : option bool :=
  Some (bool_decide (Exists (λ r : Z * Z,
    attr e "id" = VInt r.2 ∧ r.1 ∈ ids ∧ r.1 ∈ Thing.id <$> things db) (things_events db))).

(** [db.session.query(Recipe.id).filter(Recipe.task.has(Task.name.in_(names)))]. *)
Definition task_recipes (db : Db) (names : list string) : list Z :=
  Recipe.id <$> where_ (λ r, Some (is_true (col_in (Recipe.task r) names))) (recipes db).

Section filters.
(** [q.search(query)], the full-text search of the query class. *)
Variable search : string → list Event → list Event.

Definition apply_event_filters (db : Db) (q : list Event) (kw : Kw) : list Event :=
  (* filter by organization_id *)
  let q := where_ (λ e, val_eq (attr e "organization_id") (VInt (org kw))) q in
  (* apply search query *)
  let q := if truthy (search_query kw)
           then search (default EmptyString (search_query kw)) q else q in
  (* apply status filter *)
  let q := filter_if (bool_decide (status kw ≠ "all"))
             (λ e, val_eq (attr e "status") (VStr (status kw))) q in
  (* apply date filters *)
  let q := filter_some (created_after kw) (λ t e, date_ge (attr e "created") t) q in
  let q := filter_some (created_before kw) (λ t e, date_le (attr e "created") t) q in
  let q := filter_some (updated_after kw) (λ t e, date_ge (attr e "updated") t) q in
  let q := filter_some (updated_before kw) (λ t e, date_le (attr e "updated") t) q in
  (* apply recipe filter *)
  let q := filter_if (bool_decide (length (include_recipes kw) ≠ 0%nat))
             (λ e, in_ (attr e "recipe_id") (include_recipes kw)) q in
  let q := filter_if (bool_decide (length (exclude_recipes kw) ≠ 0%nat))
             (λ e, sql_not (in_ (attr e "recipe_id") (exclude_recipes kw))) q in
  (* apply tags filter *)
  let q := filter_if (bool_decide (length (include_tags kw) ≠ 0%nat))
             (tags_any db (include_tags kw)) q in
  let q := filter_if (bool_decide (length (exclude_tags kw) ≠ 0%nat))
             (λ e, sql_not (tags_any db (exclude_tags kw) e)) q in
  (* apply things filter *)
  let q := filter_if (bool_decide (length (include_things kw) ≠ 0%nat))
             (things_any db (include_things kw)) q in
  let q := filter_if (bool_decide (length (exclude_things kw) ≠ 0%nat))
             (λ e, sql_not (things_any db (exclude_things kw) e)) q in
  (* apply tasks filter *)
  let q := filter_if (bool_decide (length (include_tasks kw) ≠ 0%nat))
             (λ e, in_ (attr e "recipe_id") (task_recipes db (include_tasks kw))) q in
  let q := filter_if (bool_decide (length (exclude_tasks kw) ≠ 0%nat))
             (λ e, sql_not (in_ (attr e "recipe_id")
                                (task_recipes db (exclude_tasks kw)))) q in
  q.
End filters.

(** The keyword arguments [search_events] builds from a request without
    parameters: [status] defaults to ['pending'], the lists are empty. *)
Definition default_kw (org_id : Z) : Kw :=
  mkKw org_id None "pending" None None None None [] [] [] [] [] [] [] [].

(** *** The event object of a request *)

(** [Event.query.filter_by(id=event_id, organization_id=org_id).first()]:
    the position of the first matching row, which identifies the loaded
    object for the rest of the request. *)
Definition Event_lookup (db : Db) (org_id event_id : Z) : option (nat * Event) :=
  list_find (λ e,
    attr e "id" = VInt event_id ∧ attr e "organization_id" = VInt org_id) (events db).

Definition Event_first (org_id event_id : Z) : M (option nat) :=
  query (λ db, fst <$> Event_lookup db org_id event_id).

(** The loaded object's current state. *)
Definition load (e : nat) : M Event :=
  query (λ db, default ∅ (events db !! e)).

(** [setattr(e, k, v)]. *)
Definition setattr (e : nat) (k : string) (v : value) : M unit :=
  modify (set_events (alter (insert k v) e)).

(** [e.tags.append(tag)] and [e.things.append(thing)]. *)
Definition tags_append (event_id : Z) (tag : Tag.t) : M unit :=
  modify (set_events_tags (λ rows, (rows ++ [(event_id, Tag.id tag)])%list)).

Definition things_append (event_id : Z) (thing : Thing.t) : M unit :=
  modify (set_things_events (λ rows, (rows ++ [(Thing.id thing, event_id)])%list)).

(** [e.tags.remove(tag)] and [e.things.remove(thing)]. *)
Definition tags_remove (event_id : Z) (tag : Tag.t) : M unit :=
  modify (set_events_tags (list_remove_first (event_id, Tag.id tag))).

Definition things_remove (event_id : Z) (thing : Thing.t) : M unit :=
  modify (set_things_events (list_remove_first (Thing.id thing, event_id))).

Definition not_exist (event_id : Z) : Error :=
  RequestError ("An Event with ID " +:+ pretty event_id +:+ " does not exist.").

Definition impact_only : Error :=
  RequestError "Events can only be assigned Impact Tags.".

Definition incomplete_approval : Error :=
  RequestError
    ("To approve an event you must assign it to one or more "
     +:+ "Things or Tags by using the " +:+ dquote +:+ "thing_ids" +:+ dquote
     +:+ " and " +:+ dquote +:+ "tag_ids" +:+ dquote +:+ " fields.").

(** *** event_update *)

(** The body of a PUT/PATCH request: [req_data] is the mapping
    [request_data()] returns, [tag_ids] and [thing_ids] are what
    [listify_data_arg] returns for these two keys (the empty list when
    the key is absent). *)
Record Request := mkRequest {
  req_data : gmap string value;
  tag_ids : list Z;
  thing_ids : list Z
}.

(** [for thing, tag in zip(things, tags)]: the body of the loop. *)
Definition approve_step (event_id : Z) (thing : Thing.t) (tag : Tag.t) : M unit :=
  ids ← query (λ db, Event_thing_ids db event_id);
  when (bool_decide (Thing.id thing ∉ ids)) (things_append event_id thing);;
  (* validate tag *)
  (if bool_decide (Tag.type tag ≠ "impact")
   then raise impact_only
   else mret ());;
  (* add it *)
  ids ← query (λ db, Event_tag_ids db event_id);
  when (bool_decide (Tag.id tag ∉ ids)) (tags_append event_id tag).

Fixpoint approve_loop (event_id : Z) (pairs : list (Thing.t * Tag.t)) : M unit :=
  match pairs with
  | [] => mret ()
  | (thing, tag) :: rest =>
      approve_step event_id thing tag;;
      approve_loop event_id rest
  end.

(** The first part of the view: decide whether this request approves the
    event, and fetch the tags and things it names. *)
Definition check_approval (e : nat) (req : Request)
  : M (bool * list Tag.t * list Thing.t) :=
  ev ← load e;
  let current_status := attr ev "status" in
  let req_status := attr (req_data req) "status" in
  if bool_decide (length (tag_ids req) ≠ 0%nat)
     && bool_decide (length (thing_ids req) ≠ 0%nat)
  then
    tags ← query (λ db, filter (λ t, Tag.id t ∈ tag_ids req) (tags db));
    if bool_decide (length tags = 0%nat)
    then raise (RequestError ("Tag(s) with ID(s) " +:+ repr_list (tag_ids req)
                              +:+ " do(es) not exist."))
    else
      things ← query (λ db, filter (λ t, Thing.id t ∈ thing_ids req) (things db));
      if bool_decide (length things = 0%nat)
      then raise (RequestError ("Thing(s) with ID(s) " +:+ repr_list (tag_ids req)
                                +:+ " do(es) not exist."))
      else mret (true, tags, things)
  else if bool_decide (current_status ≠ VStr "approved")
          && bool_decide (req_status = VStr "approved")
  then raise incomplete_approval
  else mret (false, [], []).

(** [for k, v in req_data.items(): setattr(e, k, v)]. *)
Fixpoint update_fields (e : nat) (items : list (string * value)) : M unit :=
  match items with
  | [] => mret ()
  | (k, v) :: rest => setattr e k v;; update_fields e rest
  end.

(** The view.  [columns] is [get_table_columns(Event)] and [now] is what
    [dates.now()] returns.  The loop that pops the keys that are not
    columns runs over the list of keys (Python 2), so it is a filter. *)
Definition event_update (columns : list string) (now : Z)
    (org_id event_id : Z) (req : Request) : M Event :=
  e ← Event_first org_id event_id;
  match e with
  | None => raise (not_exist event_id)
  | Some e =>
      '(approve, tags, things) ← check_approval e req;
      (* filter out any non-columns *)
      let req_data : gmap string value :=
        filter (λ kv, kv.1 ∈ columns) (req_data req) in
      (* if we're approving this event, override status *)
      let req_data := if approve : bool
                      then <["status" := VStr "approved"]> req_data else req_data in
      (* add "updated" date *)
      let req_data := <["updated" := VDate now]> req_data in
      (* update fields *)
      update_fields e (map_to_list req_data);;
      (* ensure no one sneakily/accidentally updates an organization id *)
      setattr e "organization_id" (VInt org_id);;
      (* if we're approving, add tags + things *)
      when approve (approve_loop event_id (zip things tags));;
      (* commit changes *)
      commit;;
      (* return modified event *)
      load e
  end.

(** *** event_delete *)

Definition event_delete (now : Z) (org_id event_id : Z) : M Event :=
  e ← Event_first org_id event_id;
  match e with
  | None => raise (not_exist event_id)
  | Some e =>
      (* remove associations *)
      modify (set_events_tags (filter (λ r, r.1 ≠ event_id)));;
      modify (set_things_events (filter (λ r, r.2 ≠ event_id)));;
      (* update event *)
      setattr e "status" (VStr "deleted");;
      setattr e "updated" (VDate now);;
      commit;;
      load e
  end.

(** *** event_add_tag, event_delete_tag *)

Definition event_add_tag (now : Z) (org_id event_id tag_id : Z) : M Event :=
  e ← Event_first org_id event_id;
  match e with
  | None => raise (not_exist event_id)
  | Some e =>
      ev ← load e;
      if bool_decide (attr ev "status" ≠ VStr "approved")
      then raise (RequestError
             "You must first approve an Event before adding additional Tags.")
      else
        tag ← query (λ db, snd <$> list_find (λ t,
                 Tag.id t = tag_id ∧ Tag.organization_id t = org_id) (tags db));
        match tag with
        | None => raise (RequestError
                    ("Tag with ID " +:+ pretty tag_id +:+ " does not exist."))
        | Some tag =>
            if bool_decide (Tag.type tag ≠ "impact")
            then raise impact_only
            else
              ids ← query (λ db, Event_tag_ids db event_id);
              when (bool_decide (Tag.id tag ∉ ids)) (tags_append event_id tag);;
              setattr e "updated" (VDate now);;
              commit;;
              load e
        end
  end.

(** [for tag in e.tags: if tag.id == tag_id: e.tags.remove(tag)].  The
    list iterator holds an index into the collection the body shrinks;
    [fuel] bounds the number of iterations. *)
Fixpoint tags_remove_loop (fuel : nat) (event_id tag_id : Z) (i : nat) : M unit :=
  match fuel with
  | O => mret ()
  | S fuel =>
      ts ← query (λ db, Event_tags db event_id);
      match ts !! i with
      | None => mret ()
      | Some tag =>
          when (bool_decide (Tag.id tag = tag_id)) (tags_remove event_id tag);;
          tags_remove_loop fuel event_id tag_id (S i)
      end
  end.

Definition no_association (kind : string) (event_id other_id : Z) : Error :=
  RequestError ("An Event with ID " +:+ pretty event_id
                +:+ " does not currently have an association "
                +:+ "with a " +:+ kind +:+ " with ID " +:+ pretty other_id).

Definition event_delete_tag (now : Z) (org_id event_id tag_id : Z) : M Event :=
  e ← Event_first org_id event_id;
  match e with
  | None => raise (not_exist event_id)
  | Some e =>
      ts ← query (λ db, Event_tags db event_id);
      if bool_decide (tag_id ∉ Tag.id <$> ts)
      then raise (no_association "Tag" event_id tag_id)
      else
        tags_remove_loop (length ts) event_id tag_id 0;;
        setattr e "updated" (VDate now);;
        commit;;
        load e
  end.

(** *** event_add_thing, event_delete_thing *)

Definition event_add_thing (now : Z) (org_id event_id thing_id : Z) : M Event :=
  e ← Event_first org_id event_id;
  match e with
  | None => raise (not_exist event_id)
  | Some e =>
      ev ← load e;
      if bool_decide (attr ev "status" ≠ VStr "approved")
      then raise (RequestError
             "You must first approve an Event before adding additional Things.")
      else
        thing ← query (λ db, snd <$> list_find (λ t,
                   Thing.id t = thing_id ∧ Thing.organization_id t = org_id) (things db));
        match thing with
        | None => raise (RequestError
                    ("Thing with ID " +:+ pretty thing_id +:+ " does not exist."))
        | Some thing =>
            ids ← query (λ db, Event_thing_ids db event_id);
            when (bool_decide (Thing.id thing ∉ ids)) (things_append event_id thing);;
            setattr e "updated" (VDate now);;
            commit;;
            load e
        end
  end.

Fixpoint things_remove_loop (fuel : nat) (event_id thing_id : Z) (i : nat) : M unit :=
  match fuel with
  | O => mret ()
  | S fuel =>
      ts ← query (λ db, Event_things db event_id);
      match ts !! i with
      | None => mret ()
      | Some thing =>
          when (bool_decide (Thing.id thing = thing_id)) (things_remove event_id thing);;
          things_remove_loop fuel event_id thing_id (S i)
      end
  end.

Definition event_delete_thing (now : Z) (org_id event_id thing_id : Z) : M Event :=
  e ← Event_first org_id event_id;
  match e with
  | None => raise (not_exist event_id)
  | Some e =>
      ts ← query (λ db, Event_things db event_id);
      if bool_decide (thing_id ∉ Thing.id <$> ts)
      then raise (no_association "Thing" event_id thing_id)
      else
        things_remove_loop (length ts) event_id thing_id 0;;
        setattr e "updated" (VDate now);;
        commit;;
        load e
  end.

(** *** event *)


End EventsApi.

(** ** content_api.py *)

Module ContentApi.

(** The keyword arguments [apply_content_item_filters] reads. *)
Record Kw := mkKw {
  org_id : Z;
  search_query : option string;
  search_vector : string;
  sort_field : string;
  type : string;
  provenance : option string;
  url : option string;
  url_regex : option string;
  domain : option string;
  created_after : option Z;
  created_before : option Z;
  updated_after : option Z;
  updated_before : option Z;
  include_recipes : list Z;
  exclude_recipes : list Z;
  include_categories : list string;
  exclude_categories : list string;
  include_levels : list string;
  exclude_levels : list string;
  include_tags : list Z;
  exclude_tags : list Z;
  include_sous_chefs : list string;
  exclude_sous_chefs : list string
}.

(** The search vector a query is matched against. *)
Inductive vector :=
  | AllVectors
  | AuthorVector
  | ColumnVector (name : string).

(** [getattr(ContentItem, vname)]: the model has four vector columns. *)
Definition search_vector_columns : list string :=
  ["title_search_vector"; "body_search_vector";
   "description_search_vector"; "meta_search_vector"].

Definition get_vector (name : string) : outcome vector :=
  if bool_decide (name = "all") then Return AllVectors
  else if bool_decide (name = "authors") then Return AuthorVector
  else
    let vname := name +:+ "_search_vector" in
    if bool_decide (vname ∈ search_vector_columns)
    then Return (ColumnVector vname)
    else Raise (AttributeError vname).

(** The event ids of the rows of [events_tags] joined to a tag of the
    organization that satisfies [p]:
    [db.session.query(events_tags.c.event_id).join(Tag)
       .filter_by(org_id=...).filter(p).all()], one id per joined row. *)
Definition tag_event_ids (db : Db) (org_id : Z) (p : Tag.t → bool) : list Z :=
  r ← events_tags db;
  t ← tags db;
  if bool_decide (Tag.id t = r.2)
     && bool_decide (Tag.organization_id t = org_id) && p t
  then [r.1] else [].

Definition category_event_ids (db : Db) (org_id : Z) (cats : list string) : list Z :=
  tag_event_ids db org_id (λ t, bool_decide (Tag.category t ∈ cats)).

Definition level_event_ids (db : Db) (org_id : Z) (levels : list string) : list Z :=
  tag_event_ids db org_id (λ t, bool_decide (Tag.level t ∈ levels)).

(** [for e in event_ids: all_event_ids.add(e)]. *)
Definition add_all (ids : list Z) (acc : gset Z) : gset Z :=
  foldl (λ acc e, {[e]} ∪ acc) acc ids.

(** [for e in event_ids: all_event_ids.remove(e)]: [set.remove] raises
    [KeyError] for an element the set does not hold. *)
Fixpoint remove_all (ids : list Z) (acc : gset Z) : outcome (gset Z) :=
  match ids with
  | [] => Return acc
  | e :: rest =>
      if decide (e ∈ acc) then remove_all rest (acc ∖ {[e]})
      else Raise (KeyError e)
  end.

(** [ContentItem.events.any(Event.id.in_(ids))]. *)
Definition events_any (db : Db) (ids : list Z) (c : ContentItem.t) : option bool :=
  Some (bool_decide (Exists (λ r : Z * Z,
    r.1 = ContentItem.id c ∧ r.2 ∈ ids
    ∧ VInt r.2 ∈ (λ e : Event, attr e "id") <$> events db) (content_items_events db))).

(** [ContentItem.tags.any(Tag.id.in_(ids))]. *)
Definition tags_any (db : Db) (ids : list Z) (c : ContentItem.t) : option bool :=
  Some (bool_decide (Exists (λ r : Z * Z,
    r.1 = ContentItem.id c ∧ r.2 ∈ ids ∧ r.2 ∈ Tag.id <$> tags db)
    (content_items_tags db))).

(** [db.session.query(Recipe.id)
       .filter(Recipe.sous_chef.has(SousChef.name.in_(names)))]. *)
Definition sous_chef_recipes (db : Db) (names : list string) : list Z :=
  Recipe.id <$> where_ (λ r, Some (is_true (col_in (Recipe.sous_chef r) names))) (recipes db).

Section filters.
(** [q.search(query, vector=vector, sort=sort)] of the query class, and
    the match operator of [content.url ~ :regex]. *)
Variable search : string → vector → bool → list ContentItem.t → list ContentItem.t.
Variable regex_match : string → string → bool.

Definition apply_content_item_filters (db : Db) (q : list ContentItem.t) (kw : Kw)
  : outcome (list ContentItem.t * list Z) :=
  (* filter by org_id *)
  let q := where_ (λ c, col_eq (ContentItem.org_id c) (org_id kw)) q in
  (* use this for keeping track of levels/categories events. *)
  let all_event_ids : gset Z := ∅ in
  (* apply search query *)
  q ← (if truthy (search_query kw)
       then
         let sort := bool_decide (sort_field kw = "relevance") in
         vector ← get_vector (search_vector kw);
         Return (search (default EmptyString (search_query kw)) vector sort q)
       else Return q);
  (* apply status filter *)
  let q := filter_if (bool_decide (type kw ≠ "all"))
             (λ c, col_eq (ContentItem.type c) (type kw)) q in
  let q := filter_if (truthy (provenance kw))
             (λ c, col_eq (ContentItem.provenance c)
                          (default EmptyString (provenance kw))) q in
  (* filter by url *)
  let q := filter_if (truthy (url kw))
             (λ c, col_eq (ContentItem.url c) (default EmptyString (url kw))) q in
  (* filter url by regex *)
  let q := filter_if (truthy (url_regex kw))
             (λ c, regex_match (default EmptyString (url_regex kw))
                     <$> ContentItem.url c) q in
  (* filter by domain *)
  let q := filter_if (truthy (domain kw))
             (λ c, col_eq (ContentItem.domain c)
                          (default EmptyString (domain kw))) q in
  (* apply date filters *)
  let q := filter_some (created_after kw) (λ t c, col_ge (ContentItem.created c) t) q in
  let q := filter_some (created_before kw) (λ t c, col_le (ContentItem.created c) t) q in
  let q := filter_some (updated_after kw) (λ t c, col_ge (ContentItem.updated c) t) q in
  let q := filter_some (updated_before kw) (λ t c, col_le (ContentItem.updated c) t) q in
  (* apply recipe filter *)
  let q := filter_if (bool_decide (length (include_recipes kw) ≠ 0%nat))
             (λ c, col_in (ContentItem.recipe_id c) (include_recipes kw)) q in
  let q := filter_if (bool_decide (length (exclude_recipes kw) ≠ 0%nat))
             (λ c, sql_not (col_in (ContentItem.recipe_id c) (exclude_recipes kw))) q in
  (* apply tag categories/levels filter *)
  '(q, all_event_ids) ←
    (if bool_decide (length (include_categories kw) ≠ 0%nat)
     then
       let event_ids := category_event_ids db (org_id kw) (include_categories kw) in
       let all_event_ids := add_all event_ids all_event_ids in
       Return (where_ (events_any db event_ids) q, all_event_ids)
     else Return (q, all_event_ids));
  '(q, all_event_ids) ←
    (if bool_decide (length (exclude_categories kw) ≠ 0%nat)
     then
       let event_ids := category_event_ids db (org_id kw) (exclude_categories kw) in
       all_event_ids ← remove_all event_ids all_event_ids;
       Return (where_ (events_any db event_ids) q, all_event_ids)
     else Return (q, all_event_ids));
  '(q, all_event_ids) ←
    (if bool_decide (length (include_levels kw) ≠ 0%nat)
     then
       let event_ids := level_event_ids db (org_id kw) (include_levels kw) in
       let all_event_ids := add_all event_ids all_event_ids in
       Return (where_ (events_any db event_ids) q, all_event_ids)
     else Return (q, all_event_ids));
  '(q, all_event_ids) ←
    (if bool_decide (length (exclude_levels kw) ≠ 0%nat)
     then
       let event_ids := level_event_ids db (org_id kw) (exclude_levels kw) in
       all_event_ids ← remove_all event_ids all_event_ids;
       Return (where_ (events_any db event_ids) q, all_event_ids)
     else Return (q, all_event_ids));
  (* apply tags filter *)
  let q := filter_if (bool_decide (length (include_tags kw) ≠ 0%nat))
             (tags_any db (include_tags kw)) q in
  let q := filter_if (bool_decide (length (exclude_tags kw) ≠ 0%nat))
             (λ c, sql_not (tags_any db (exclude_tags kw) c)) q in
  (* apply sous_chefs filter *)
  let q := filter_if (bool_decide (length (include_sous_chefs kw) ≠ 0%nat))
             (λ c, col_in (ContentItem.recipe_id c)
                          (sous_chef_recipes db (include_sous_chefs kw))) q in
  let q := filter_if (bool_decide (length (exclude_sous_chefs kw) ≠ 0%nat))
             (λ c, sql_not (col_in (ContentItem.recipe_id c)
                              (sous_chef_recipes db (exclude_sous_chefs kw)))) q in
  Return (q, elements all_event_ids).
End filters.



(** The keyword arguments [search_content] builds from a request without
    parameters. *)
Definition default_kw (org : Z) : Kw :=
  mkKw org None "all" "created" "all" None None None None None None None None
       [] [] [] [] [] [] [] [] [] [].

(** *** content_items *)

(** How Python resolves a name inside the view: the function's local
    variables, then the names bound in the module ([globals]). *)
Definition resolve (locals globals : gmap string value) (name : string)
  : outcome value :=
  match locals !! name with
  | Some v => Return v
  | None =>
      match globals !! name with
      | Some v => Return v
      | None => Raise (NameError name)
      end
  end.

(** [str(v)] of a value, as [format] prints it. *)
Definition str (v : value) : string :=
  match v with
  | VNone => "None"
  | VInt n => pretty n
  | VStr s => s
  | VDate t => pretty t
  end.

(** The view that fetches one content item.  [globals] are the names the
    module binds to plain values; the other local names of the view are
    [user], [org] and [c].  The view returns the row it found. *)
Definition content_items (globals : gmap string value) (db : Db)
    (org_id content_item_id : Z) : outcome ContentItem.t :=
  let locals : gmap string value :=
    {[ "content_item_id" := VInt content_item_id ]} in
  let c := head (where_ (λ c, Some (bool_decide (ContentItem.id c = content_item_id)
                                    && is_true (col_eq (ContentItem.org_id c) org_id)))
                        (content db)) in
  match c with
  | None =>
      v ← resolve locals globals "event_id";
      Raise (NotFoundError ("An ContentItem with ID " +:+ str v +:+ " does not exist."))
  | Some c => Return c
  end.

End ContentApi.

(** ** Sample data

    A small database of organization 7 used by the examples: one pending
    event, an impact tag and a subject tag, two things, and one content
    item joined to the event. *)

Module Sample.

Definition ev1 : Event :=
  {[ "id" := VInt 1; "organization_id" := VInt 7; "status" := VStr "pending" ]}.

Definition impact_tag : Tag.t := Tag.mk 1 7 "impact" "promotion" "media".
Definition subject_tag : Tag.t := Tag.mk 2 7 "subject" "citation" "institution".

Definition thing1 : Thing.t := Thing.mk 1 7.
Definition thing2 : Thing.t := Thing.mk 2 7.

Definition item10 : ContentItem.t :=
  ContentItem.mk 10 (Some 7) None (Some "article") (Some "recipe")
    (Some "http://example.com/a") (Some "example.com") (Some 50) (Some 50)
    None None None (Some "A title") None None None.

(** Nothing is associated with the event yet. *)
Definition db : Db :=
  mkDb [ev1] [impact_tag; subject_tag] [thing1; thing2] [] [item10]
       [] [] [(10, 1)] [].

(** The pending event with a tag and a thing, as an approval followed by
    an update that sets the status back to ['pending'] leaves it. *)
Definition tagged_db : Db :=
  mkDb [ev1] [impact_tag; subject_tag] [thing1; thing2] [] [item10]
       [(1, 1)] [(1, 1)] [(10, 1)] [].

(** An impact tag of another category, and the database in which the
    event carries both impact tags. *)
Definition citation_tag : Tag.t := Tag.mk 3 7 "impact" "citation" "institution".

Definition content_db : Db :=
  mkDb [ev1] [impact_tag; subject_tag; citation_tag] [thing1; thing2] [] [item10]
       [(1, 1); (1, 3)] [(1, 1)] [(10, 1)] [].

(** A search for the content items of organization 7 with the given
    category filters. *)
Definition categories_kw (include exclude : list string) : ContentApi.Kw :=
  ContentApi.mkKw 7 None "all" "created" "all" None None None None None None None None
    [] [] include exclude [] [] [] [] [] [].


(** [get_table_columns(Event)]. *)
Definition columns : list string :=
  ["id"; "organization_id"; "recipe_id"; "status"; "created"; "updated";
   "title"; "description"].

(** External collaborators that take no part in a request without a
    search query or a URL pattern. *)
Definition search_events (query : string) (q : list Event) : list Event := q.
Definition search_content (query : string) (v : ContentApi.vector) (sort : bool)
    (q : list ContentItem.t) : list ContentItem.t := q.
Definition regex_match (pattern url : string) : bool := true.

(** An approved event of organization 7 that came from recipe 4 and
    carries both impact tags and thing 1, and an event of organization 8. *)
Definition ev2 : Event :=
  {[ "id" := VInt 2; "organization_id" := VInt 7; "status" := VStr "approved";
     "recipe_id" := VInt 4; "created" := VDate 60; "updated" := VDate 70 ]}.

Definition ev3 : Event :=
  {[ "id" := VInt 3; "organization_id" := VInt 8; "status" := VStr "pending" ]}.

Definition recipe4 : Recipe.t :=
  Recipe.mk 4 (Some "twitter-list") (Some "twitter-list-to-event").

Definition search_db : Db :=
  mkDb [ev1; ev2; ev3] [impact_tag; subject_tag; citation_tag] [thing1; thing2]
       [recipe4] [item10] [(2, 1); (2, 3)] [(1, 2)] [(10, 2)] [].

End Sample.

(** * Properties *)

(** ** Reasoning about requests *)

Lemma M_bind_unfold {A B} (m : M A) (f : A → M B) s :
  (m ≫= f) s = match m s with
               | (Return a, s') => f a s'
               | (Raise e, s') => (Raise e, s')
               end.
Proof. reflexivity. Qed.

(** A computation that does not commit. *)
Definition keeps_committed {A} (m : M A) : Prop :=
  ∀ s, committed (m s).2 = committed s.

(** A computation that only reads. *)
Definition read_only {A} (m : M A) : Prop :=
  ∀ s, (m s).2 = s.

Lemma keeps_bind {A B} (m : M A) (f : A → M B) :
  keeps_committed m → (∀ a, keeps_committed (f a)) → keeps_committed (m ≫= f).
Proof.
  intros Hm Hf s. rewrite M_bind_unfold. specialize (Hm s).
  destruct (m s) as [[a|e] s1]; simpl in *; [|done].
  by rewrite Hf.
Qed.

Lemma keeps_ret {A} (a : A) : keeps_committed (mret a).
Proof. done. Qed.
Lemma keeps_raise {A} e : keeps_committed (@raise A e).
Proof. done. Qed.
Lemma keeps_query {A} (f : Db → A) : keeps_committed (query f).
Proof. done. Qed.
Lemma keeps_modify f : keeps_committed (modify f).
Proof. done. Qed.
Lemma keeps_when c m : keeps_committed m → keeps_committed (when c m).
Proof. by destruct c. Qed.

Lemma read_only_bind {A B} (m : M A) (f : A → M B) :
  read_only m → (∀ a, read_only (f a)) → read_only (m ≫= f).
Proof.
  intros Hm Hf s. rewrite M_bind_unfold. specialize (Hm s).
  destruct (m s) as [[a|e] s1]; simpl in *; subst; [|done].
  by rewrite Hf.
Qed.

Lemma read_only_ret {A} (a : A) : read_only (mret a).
Proof. done. Qed.
Lemma read_only_raise {A} e : read_only (@raise A e).
Proof. done. Qed.
Lemma read_only_query {A} (f : Db → A) : read_only (query f).
Proof. done. Qed.

Create HintDb session.
#[local] Hint Resolve keeps_ret keeps_raise keeps_query keeps_modify keeps_when : session.
#[local] Hint Resolve read_only_ret read_only_raise read_only_query : session.
#[local] Hint Extern 2 (keeps_committed (_ ≫= _)) => apply keeps_bind; [|intros] : session.
#[local] Hint Extern 2 (read_only (_ ≫= _)) => apply read_only_bind; [|intros] : session.
#[local] Hint Extern 3 (keeps_committed (if ?c then _ else _)) => destruct c : session.
#[local] Hint Extern 3 (read_only (if ?c then _ else _)) => destruct c : session.

Lemma set_events_compose f g db :
  set_events f (set_events g db) = set_events (f ∘ g) db.
Proof. done. Qed.

(** Writing the items of a mapping one by one is a union with it. *)
Lemma foldl_insert_notin (l : list (string * value)) (ev : Event) k :
  k ∉ l.*1 → foldl (λ acc kv, <[kv.1 := kv.2]> acc) ev l !! k = ev !! k.
Proof.
  revert ev. induction l as [|[k' v'] l IH]; intros ev Hk; simpl in *; [done|].
  apply not_elem_of_cons in Hk as [Hne Hk].
  rewrite IH by done. by rewrite lookup_insert_ne.
Qed.

Lemma foldl_insert_in (l : list (string * value)) (ev : Event) k v :
  NoDup l.*1 → (k, v) ∈ l → foldl (λ acc kv, <[kv.1 := kv.2]> acc) ev l !! k = Some v.
Proof.
  revert ev. induction l as [|[k' v'] l IH]; intros ev Hnd Hin; simpl in *.
  { by apply elem_of_nil in Hin. }
  apply NoDup_cons in Hnd as [Hk' Hnd].
  apply elem_of_cons in Hin as [Heq|Hin].
  - injection Heq as -> ->. rewrite foldl_insert_notin by done. apply lookup_insert_eq.
  - by apply IH.
Qed.

Lemma foldl_insert_map_to_list (m ev : Event) :
  foldl (λ acc kv, <[kv.1 := kv.2]> acc) ev (map_to_list m) = m ∪ ev.
Proof.
  apply map_eq. intros k. rewrite lookup_union.
  destruct (m !! k) as [v|] eqn:Hk.
  - rewrite (foldl_insert_in _ _ k v).
    + by destruct (ev !! k).
    + apply NoDup_fst_map_to_list.
    + by apply elem_of_map_to_list.
  - rewrite foldl_insert_notin.
    + by destruct (ev !! k).
    + intros Hin. apply list_elem_of_fmap in Hin as [[k' v'] [-> Hin]].
      apply elem_of_map_to_list in Hin. simpl in *. congruence.
Qed.

Section events.
Import EventsApi.

Lemma keeps_setattr e k v : keeps_committed (setattr e k v).
Proof. done. Qed.

Lemma update_fields_run e items s :
  update_fields e items s =
    (Return (), mkSession (committed s)
       (set_events (alter (λ ev, foldl (λ acc kv, <[kv.1 := kv.2]> acc) ev items) e)
                   (pending s))).
Proof.
  revert s. induction items as [|[k v] items IH]; intros s; simpl.
  - unfold mret, M_ret. f_equal. destruct s as [c p]; simpl. f_equal.
    destruct p; unfold set_events; simpl. f_equal.
    symmetry. apply list_alter_id. done.
  - rewrite M_bind_unfold. simpl. rewrite IH. simpl. f_equal. f_equal.
    rewrite set_events_compose. unfold set_events; simpl. f_equal.
    by rewrite list_alter_alter_eq.
Qed.

Lemma keeps_approve_step eid thing tag : keeps_committed (approve_step eid thing tag).
Proof. unfold approve_step, tags_append, things_append. auto 10 with session. Qed.

Lemma keeps_approve_loop eid pairs : keeps_committed (approve_loop eid pairs).
Proof.
  induction pairs as [|[thing tag] pairs IH]; simpl;
    auto using keeps_approve_step with session.
Qed.

Lemma read_only_check_approval e req : read_only (check_approval e req).
Proof. unfold check_approval, load. auto 10 with session. Qed.

End events.

Ltac session_simpl :=
  unfold mbind, M_bind, mret, M_ret, query, modify, raise, commit, when in *;
  simpl in *.
Ltac session_cases := repeat (session_simpl; case_bool_decide).

Section update.
Import EventsApi.

Lemma Event_lookup_Some db org_id event_id i ev :
  Event_lookup db org_id event_id = Some (i, ev) →
  events db !! i = Some ev
  ∧ attr ev "id" = VInt event_id ∧ attr ev "organization_id" = VInt org_id.
Proof.
  unfold Event_lookup. intros H.
  apply list_find_Some in H as (? & [? ?] & _). done.
Qed.

(** What [approve_loop] leaves alone, and how it can end. *)
Lemma approve_step_frame eid thing tag s :
  let s' := (approve_step eid thing tag s).2 in
  events (pending s') = events (pending s)
  ∧ tags (pending s') = tags (pending s)
  ∧ things (pending s') = things (pending s).
Proof.
  unfold approve_step, things_append, tags_append.
  session_cases; done.
Qed.

Lemma approve_loop_frame eid pairs s :
  let s' := (approve_loop eid pairs s).2 in
  events (pending s') = events (pending s)
  ∧ tags (pending s') = tags (pending s)
  ∧ things (pending s') = things (pending s).
Proof.
  revert s. induction pairs as [|[thing tag] pairs IH]; intros s; simpl; [done|].
  rewrite M_bind_unfold.
  pose proof (approve_step_frame eid thing tag s) as Hstep. simpl in Hstep.
  destruct (approve_step eid thing tag s) as [[[]|err] s1]; simpl in *; [|done].
  specialize (IH s1). simpl in IH.
  destruct Hstep as (<- & <- & <-). done.
Qed.

Lemma approve_step_outcome eid thing tag s :
  (approve_step eid thing tag s).1 =
    if bool_decide (Tag.type tag ≠ "impact") then Raise impact_only else Return ().
Proof.
  unfold approve_step, things_append, tags_append.
  session_cases; done.
Qed.

Lemma approve_loop_outcome eid pairs s :
  (approve_loop eid pairs s).1 =
    if bool_decide (Forall (λ p, Tag.type p.2 = "impact") pairs)
    then Return () else Raise impact_only.
Proof.
  revert s. induction pairs as [|[thing tag] pairs IH]; intros s; simpl; [done|].
  rewrite M_bind_unfold.
  pose proof (approve_step_outcome eid thing tag s) as Hstep.
  destruct (approve_step eid thing tag s) as [r s1]; simpl in *; subst r.
  destruct (decide (Tag.type tag = "impact")) as [Ht|Ht].
  - rewrite bool_decide_eq_false_2 by (by intros ?). rewrite IH.
    rewrite (bool_decide_ext (Forall _ (_ :: _)) (Forall (λ p, Tag.type p.2 = "impact") pairs));
      [done|].
    rewrite Forall_cons. simpl. tauto.
  - rewrite bool_decide_eq_true_2 by done.
    rewrite bool_decide_eq_false_2; [done|].
    rewrite Forall_cons. simpl. tauto.
Qed.

(** The fields the update view writes. *)
Definition written (columns : list string) (now : Z) (approve : bool)
    (req : Request) : gmap string value :=
  let req_data : gmap string value := filter (λ kv, kv.1 ∈ columns) (req_data req) in
  let req_data := if approve then <["status" := VStr "approved"]> req_data else req_data in
  <["updated" := VDate now]> req_data.

(** The event after its fields are written. *)
Definition updated_event (columns : list string) (now org_id : Z) (approve : bool)
    (req : Request) (ev : Event) : Event :=
  <["organization_id" := VInt org_id]> (written columns now approve req ∪ ev).

Lemma update_fields_union e (m : gmap string value) s :
  update_fields e (map_to_list m) s =
    (Return (), mkSession (committed s)
       (set_events (alter (λ ev, m ∪ ev) e) (pending s))).
Proof.
  rewrite update_fields_run. do 2 f_equal. unfold set_events. f_equal.
  apply list_alter_ext; [|done]. intros ev _. apply foldl_insert_map_to_list.
Qed.

Lemma alter_lookup {A} (f : A → A) (l : list A) i x :
  l !! i = Some x → alter f i l = <[i := f x]> l.
Proof.
  intros Hi. rewrite list_insert_alter. apply list_alter_ext; [|done].
  intros y Hy. congruence.
Qed.

Lemma event_update_run columns now org_id event_id req db i ev :
  Event_lookup db org_id event_id = Some (i, ev) →
  run (event_update columns now org_id event_id req) db =
    match (check_approval i req (begin db)).1 with
    | Raise err => (Raise err, db)
    | Return (approve, tags, things) =>
        let ev' := updated_event columns now org_id approve req ev in
        let s1 := mkSession db (set_events (<[i := ev']>) db) in
        if approve then
          match approve_loop event_id (zip things tags) s1 with
          | (Return _, s2) => (Return ev', pending s2)
          | (Raise err, _) => (Raise err, db)
          end
        else (Return ev', pending s1)
    end.
Proof.
  intros Hfind. pose proof (Event_lookup_Some _ _ _ _ _ Hfind) as (Hi & _ & _).
  unfold run, event_update, Event_first.
  rewrite M_bind_unfold. simpl. rewrite Hfind. simpl.
  rewrite M_bind_unfold.
  pose proof (read_only_check_approval i req (begin db)) as Hro.
  destruct (check_approval i req (begin db)) as [[[[approve tags] things]|err] s0];
    simpl in *; subst s0; [|done].
  rewrite M_bind_unfold, update_fields_union. simpl.
  fold (written columns now approve req).
  rewrite M_bind_unfold. unfold setattr at 1, modify at 1. simpl.
  rewrite set_events_compose.
  assert (set_events
            (alter (insert "organization_id" (VInt org_id)) i
             ∘ alter (λ ev0, written columns now approve req ∪ ev0) i) db
          = set_events (<[i := updated_event columns now org_id approve req ev]>) db)
    as ->.
  { unfold set_events. simpl. f_equal.
    rewrite list_alter_alter_eq. by apply alter_lookup. }
  set (ev' := updated_event columns now org_id approve req ev).
  assert (∀ l : list Event, l !! i = Some ev → default ∅ (<[i := ev']> l !! i) = ev')
    as Hload.
  { intros l Hl. rewrite list_lookup_insert_eq; [done|]. by eapply lookup_lt_Some. }
  destruct approve; simpl.
  - rewrite M_bind_unfold.
    pose proof (keeps_approve_loop event_id (zip things tags)
      (mkSession db (set_events (<[i := ev']>) db))) as Hkeep.
    pose proof (approve_loop_frame event_id (zip things tags)
      (mkSession db (set_events (<[i := ev']>) db))) as (Hev & _).
    destruct (approve_loop _ _ _) as [[[]|err] s2]; simpl in *; [|by rewrite Hkeep].
    rewrite Hev. by rewrite Hload.
  - by rewrite Hload.
Qed.
End update.

(** ** Event approval *)

Lemma filter_none {A} (P : A → Prop) `{∀ x, Decision (P x)} (l : list A) :
  (∀ x, x ∈ l → ¬ P x) → filter P l = [].
Proof.
  intros Hl. destruct (filter P l) as [|x k] eqn:Hf; [done|].
  assert (x ∈ filter P l) as Hx by (rewrite Hf; left).
  apply list_elem_of_filter in Hx as [HP Hx]. by destruct (Hl x Hx).
Qed.

Section approval.
Import EventsApi.

Lemma event_update_missing columns now org_id event_id req db :
  Event_lookup db org_id event_id = None →
  run (event_update columns now org_id event_id req) db = (Raise (not_exist event_id), db).
Proof.
  intros Hfind. unfold run, event_update, Event_first.
  rewrite M_bind_unfold. simpl. by rewrite Hfind.
Qed.

(** The decision [check_approval] takes, as a function of the database. *)
Lemma check_approval_begin i req db ev :
  events db !! i = Some ev →
  (check_approval i req (begin db)).1 =
    if bool_decide (length (tag_ids req) ≠ 0%nat)
       && bool_decide (length (thing_ids req) ≠ 0%nat)
    then
      let tags := filter (λ t, Tag.id t ∈ tag_ids req) (tags db) in
      let things := filter (λ t, Thing.id t ∈ thing_ids req) (things db) in
      if bool_decide (length tags = 0%nat)
      then Raise (RequestError ("Tag(s) with ID(s) " +:+ repr_list (tag_ids req)
                                +:+ " do(es) not exist."))
      else if bool_decide (length things = 0%nat)
      then Raise (RequestError ("Thing(s) with ID(s) " +:+ repr_list (tag_ids req)
                                +:+ " do(es) not exist."))
      else Return (true, tags, things)
    else if bool_decide (attr ev "status" ≠ VStr "approved")
            && bool_decide (attr (req_data req) "status" = VStr "approved")
    then Raise incomplete_approval
    else Return (false, [], []).
Proof.
  intros Hi. unfold check_approval, load.
  rewrite M_bind_unfold. simpl. rewrite Hi. simpl.
  destruct (_ && _); [|by destruct (_ && _)].
  rewrite M_bind_unfold. simpl. case_bool_decide; [done|].
  rewrite M_bind_unfold. simpl. by case_bool_decide.
Qed.

(** An update never commits anything when it raises. *)
Lemma event_update_Raise columns now org_id event_id req db err db' :
  run (event_update columns now org_id event_id req) db = (Raise err, db') → db' = db.
Proof.
  destruct (Event_lookup db org_id event_id) as [[i ev]|] eqn:Hfind.
  - rewrite (event_update_run _ _ _ _ _ _ i ev) by done.
    destruct (check_approval i req (begin db)).1 as [[[approve tags] things]|err0];
      [|congruence].
    simpl. destruct approve; [|congruence].
    destruct (approve_loop _ _ _) as [[[]|err1] s2]; congruence.
  - rewrite event_update_missing by done. congruence.
Qed.

(** C5: a request for status [approved] on an event that is not approved,
    without both a non-empty list of tag ids and a non-empty list of thing
    ids, fails with an error and changes nothing: the database after the
    request is the database before it, so the status is not flipped. *)
Theorem event_update_incomplete_approval columns now org_id event_id req db i ev :
  Event_lookup db org_id event_id = Some (i, ev) →
  attr ev "status" ≠ VStr "approved" →
  attr (req_data req) "status" = VStr "approved" →
  tag_ids req = [] ∨ thing_ids req = [] →
  run (event_update columns now org_id event_id req) db
  = (Raise incomplete_approval, db).
Proof.
  intros Hfind Hcur Hreq Hids.
  pose proof (Event_lookup_Some _ _ _ _ _ Hfind) as (Hi & _ & _).
  rewrite (event_update_run _ _ _ _ _ _ i ev) by done.
  rewrite (check_approval_begin _ _ _ ev) by done.
  assert (bool_decide (length (tag_ids req) ≠ 0%nat)
          && bool_decide (length (thing_ids req) ≠ 0%nat) = false) as ->.
  { destruct Hids as [-> | ->]; simpl; [done|]. apply andb_false_r. }
  rewrite !bool_decide_eq_true_2 by done. done.
Qed.

(** C9: the event an update returns belongs to the authenticated
    organization, whatever [organization_id] the request body carries,
    and it is a row of the events table the request leaves. *)
Theorem event_update_keeps_organization columns now org_id event_id req db ev' db' :
  run (event_update columns now org_id event_id req) db = (Return ev', db') →
  attr ev' "organization_id" = VInt org_id ∧ ev' ∈ events db'.
Proof.
  destruct (Event_lookup db org_id event_id) as [[i ev]|] eqn:Hfind;
    [|by rewrite event_update_missing].
  pose proof (Event_lookup_Some _ _ _ _ _ Hfind) as (Hi & _ & _).
  rewrite (event_update_run _ _ _ _ _ _ i ev) by done.
  destruct (check_approval i req (begin db)).1 as [[[approve tags] things]|err0];
    [|done].
  simpl. intros Hrun.
  assert (ev' = updated_event columns now org_id approve req ev
          ∧ events db' = <[i := ev']> (events db)) as [Hev Hdb].
  { destruct approve.
    - pose proof (approve_loop_frame event_id (zip things tags)
        (mkSession db (set_events
           (<[i := updated_event columns now org_id true req ev]>) db))) as (Hframe & _).
      destruct (approve_loop _ _ _) as [[[]|err1] s2]; [|done].
      simpl in Hframe. injection Hrun as <- <-. by rewrite Hframe.
    - by injection Hrun as <- <-. }
  split.
  - rewrite Hev. unfold updated_event, attr. by rewrite lookup_insert_eq.
  - rewrite Hdb. eapply list_elem_of_lookup_2.
    apply list_lookup_insert_eq. by eapply lookup_lt_Some.
Qed.

End approval.

Section approval_examples.
Import EventsApi.

Lemma event_update_incomplete_approval_witness :
  Event_lookup Sample.db 7 1 = Some (0%nat, Sample.ev1)
  ∧ run (event_update Sample.columns 100 7 1
           (mkRequest {[ "status" := VStr "approved" ]} [] [1])) Sample.db
    = (Raise incomplete_approval, Sample.db).
Proof.
  split; [reflexivity|].
  apply (event_update_incomplete_approval _ _ _ _ _ _ 0%nat Sample.ev1).
  - reflexivity.
  - vm_compute. discriminate.
  - reflexivity.
  - left. reflexivity.
Defined.

Lemma event_update_keeps_organization_witness :
  ∃ ev' db',
    run (event_update Sample.columns 100 7 1
           (mkRequest {[ "organization_id" := VInt 99; "title" := VStr "moved" ]} [] []))
        Sample.db = (Return ev', db')
    ∧ attr ev' "title" = VStr "moved"
    ∧ attr ev' "organization_id" = VInt 7 ∧ ev' ∈ events db'.
Proof.
  eexists _, _. split; [vm_compute; reflexivity|].
  split; [vm_compute; reflexivity|].
  apply (event_update_keeps_organization Sample.columns 100 7 1
           (mkRequest {[ "organization_id" := VInt 99; "title" := VStr "moved" ]} [] [])
           Sample.db).
  vm_compute. reflexivity.
Defined.


End approval_examples.

(** ** Pairing things with tags *)

Section pairing.
Import EventsApi.

(** C3, at a request the code accepts: the request names the impact tag 1
    and the subject tag 2 together with one thing.  [zip] pairs the single
    thing with tag 1 and stops, tag 2 is never validated, and the event is
    approved. *)
Theorem event_update_unchecked_tag :
  filter (λ t, Tag.id t ∈ [1; 2]) (tags Sample.db)
  = [Sample.impact_tag; Sample.subject_tag]
  ∧ Tag.type Sample.subject_tag = "subject"
  ∧ ∃ ev' db',
      run (event_update Sample.columns 100 7 1 (mkRequest ∅ [1; 2] [1])) Sample.db
      = (Return ev', db')
      ∧ attr ev' "status" = VStr "approved"
      ∧ events_tags db' = [(1, 1)]
      ∧ things_events db' = [(1, 1)].
Proof.
  split; [reflexivity|]. split; [reflexivity|].
  eexists _, _. split; [vm_compute; reflexivity|].
  vm_compute. done.
Qed.

(** C4, at a request the code accepts: the request names one impact tag and
    two things.  [zip] pairs the first thing with the tag and stops, so the
    second thing is not associated with the approved event. *)
Theorem event_update_unpaired_thing :
  filter (λ t, Tag.id t ∈ [1]) (tags Sample.db) = [Sample.impact_tag]
  ∧ filter (λ t, Thing.id t ∈ [1; 2]) (things Sample.db)
    = [Sample.thing1; Sample.thing2]
  ∧ ∃ ev' db',
      run (event_update Sample.columns 100 7 1 (mkRequest ∅ [1] [1; 2])) Sample.db
      = (Return ev', db')
      ∧ attr ev' "status" = VStr "approved"
      ∧ Event_tag_ids db' 1 = [1]
      ∧ Event_thing_ids db' 1 = [1].
Proof.
  split; [reflexivity|]. split; [reflexivity|].
  eexists _, _. split; [vm_compute; reflexivity|].
  vm_compute. done.
Qed.

End pairing.

(** ** Deleting an event *)

Lemma elem_of_where {A} (cond : A → option bool) (q : list A) x :
  x ∈ where_ cond q ↔ cond x = Some true ∧ x ∈ q.
Proof.
  unfold where_. rewrite list_elem_of_filter.
  destruct (cond x) as [[]|]; simpl; split; intros [? ?]; done.
Qed.

Lemma filter_if_subseteq {A} c (cond : A → option bool) q x :
  x ∈ filter_if c cond q → x ∈ q.
Proof. destruct c; simpl; [|done]. rewrite elem_of_where. tauto. Qed.

Lemma filter_some_subseteq {A B} (t : option B) (cond : B → A → option bool) q x :
  x ∈ filter_some t cond q → x ∈ q.
Proof. destruct t; simpl; [|done]. rewrite elem_of_where. tauto. Qed.

Lemma elem_of_filter_if {A} c (cond : A → option bool) q x :
  x ∈ filter_if c cond q → c = true → cond x = Some true.
Proof. intros Hx ->. simpl in Hx. apply elem_of_where in Hx. tauto. Qed.

Section deletion.
Import EventsApi.
Variable search : string → list Event → list Event.

(** A search with a status other than ['all'] only returns events of that
    status. *)
Lemma apply_event_filters_status db q kw e :
  e ∈ apply_event_filters search db q kw →
  status kw ≠ "all" →
  attr e "status" = VStr (status kw).
Proof.
  unfold apply_event_filters. cbv zeta. intros He Hstatus.
  do 4 apply filter_if_subseteq in He.
  do 2 apply filter_if_subseteq in He.
  do 2 apply filter_if_subseteq in He.
  do 4 apply filter_some_subseteq in He.
  apply elem_of_filter_if in He; [|by apply bool_decide_eq_true_2].
  unfold val_eq in He. destruct (attr e "status"); try done.
  injection He as He. by apply bool_decide_eq_true_1 in He.
Qed.

Lemma event_delete_run now org_id event_id db i ev :
  Event_lookup db org_id event_id = Some (i, ev) →
  let ev' := <["updated" := VDate now]> (<["status" := VStr "deleted"]> ev) in
  run (event_delete now org_id event_id) db =
    (Return ev',
     set_events (<[i := ev']>)
       (set_things_events (filter (λ r, r.2 ≠ event_id))
          (set_events_tags (filter (λ r, r.1 ≠ event_id)) db))).
Proof.
  intros Hfind ev'. pose proof (Event_lookup_Some _ _ _ _ _ Hfind) as (Hi & _ & _).
  unfold run, event_delete, Event_first.
  rewrite M_bind_unfold. simpl. rewrite Hfind. simpl.
  unfold setattr, load. session_simpl.
  rewrite list_alter_alter_eq, (alter_lookup _ _ _ ev) by done. simpl.
  fold ev'. rewrite list_lookup_insert_eq by (by eapply lookup_lt_Some).
  simpl. f_equal. rewrite set_events_compose. unfold set_events. simpl. f_equal.
  rewrite list_alter_alter_eq. by rewrite (alter_lookup _ _ _ ev).
Qed.

(** C6: deleting an event of the organization succeeds whatever its status.
    The row stays in the table (it is rewritten in place and keeps its id),
    every row of both association tables that names the event is gone, so
    the event has no tags and no things, its status is [deleted], its
    [updated] timestamp is the time of the request, and no search whose
    status filter is ['pending'] (the default) returns it. *)
Theorem event_delete_soft now org_id event_id db i ev :
  Event_lookup db org_id event_id = Some (i, ev) →
  ∃ ev' db',
    run (event_delete now org_id event_id) db = (Return ev', db')
    ∧ events db' = <[i := ev']> (events db)
    ∧ events db' !! i = Some ev'
    ∧ attr ev' "id" = VInt event_id
    ∧ attr ev' "status" = VStr "deleted"
    ∧ attr ev' "updated" = VDate now
    ∧ (∀ r, r ∈ events_tags db' → r.1 ≠ event_id)
    ∧ (∀ r, r ∈ things_events db' → r.2 ≠ event_id)
    ∧ Event_tags db' event_id = []
    ∧ Event_things db' event_id = []
    ∧ ∀ q kw, status kw = "pending" → ev' ∉ apply_event_filters search db' q kw.
Proof.
  intros Hfind. pose proof (Event_lookup_Some _ _ _ _ _ Hfind) as (Hi & Hid & _).
  eexists _, _. split; [by apply event_delete_run|]. simpl.
  assert (∀ r : Z * Z, r ∈ filter (λ r, r.1 ≠ event_id) (events_tags db) → r.1 ≠ event_id)
    as Htags by (intros r Hr; apply list_elem_of_filter in Hr; tauto).
  assert (∀ r : Z * Z, r ∈ filter (λ r, r.2 ≠ event_id) (things_events db) → r.2 ≠ event_id)
    as Hthings by (intros r Hr; apply list_elem_of_filter in Hr; tauto).
  split_and!; try done.
  - apply list_lookup_insert_eq. by eapply lookup_lt_Some.
  - unfold attr in *. by rewrite !lookup_insert_ne.
  - unfold attr. rewrite lookup_insert_ne by done. by rewrite lookup_insert_eq.
  - unfold attr. by rewrite lookup_insert_eq.
  - unfold Event_tags. simpl.
    induction (filter _ (events_tags db)) as [|r rows IH]; [done|].
    rewrite bind_cons, IH by (intros; apply Htags; by right).
    rewrite bool_decide_eq_false_2; [done|]. apply Htags. left.
  - unfold Event_things. simpl.
    induction (filter _ (things_events db)) as [|r rows IH]; [done|].
    rewrite bind_cons, IH by (intros; apply Hthings; by right).
    rewrite bool_decide_eq_false_2; [done|]. apply Hthings. left.
  - intros q kw Hkw Hin.
    apply apply_event_filters_status in Hin; [|by rewrite Hkw].
    rewrite Hkw in Hin. unfold attr in Hin.
    rewrite lookup_insert_ne, lookup_insert_eq in Hin by done. done.
Qed.

End deletion.

Lemma event_delete_soft_witness :
  EventsApi.Event_lookup Sample.tagged_db 7 1 = Some (0%nat, Sample.ev1)
  ∧ Event_tag_ids Sample.tagged_db 1 = [1]
  ∧ ∃ ev' db',
      run (EventsApi.event_delete 100 7 1) Sample.tagged_db = (Return ev', db')
      ∧ length (events db') = 1%nat
      ∧ attr ev' "status" = VStr "deleted"
      ∧ Event_tags db' 1 = []
      ∧ EventsApi.apply_event_filters Sample.search_events db' (events db')
          (EventsApi.default_kw 7) = [].
Proof.
  split; [reflexivity|]. split; [reflexivity|].
  destruct (event_delete_soft Sample.search_events 100 7 1 Sample.tagged_db
              0%nat Sample.ev1) as (ev' & db' & Hrun & Hev & _ & _ & Hst & _ & _ & _ & Ht & _);
    [reflexivity|].
  exists ev', db'. split; [done|].
  assert (db' = (run (EventsApi.event_delete 100 7 1) Sample.tagged_db).2) as Hdb
    by (by rewrite Hrun).
  split_and!; [| done | done |].
  - rewrite Hev. reflexivity.
  - rewrite Hdb. vm_compute. reflexivity.
Defined.

(** ** The association endpoints *)

Lemma set_events_tags_const rows f db :
  set_events_tags (λ _, rows) (set_events_tags f db) = set_events_tags (λ _, rows) db.
Proof. done. Qed.

Lemma set_things_events_const rows f db :
  set_things_events (λ _, rows) (set_things_events f db)
  = set_things_events (λ _, rows) db.
Proof. done. Qed.

Lemma set_events_tags_same s :
  mkSession (committed s) (set_events_tags (λ _, events_tags (pending s)) (pending s)) = s.
Proof. by destruct s as [c []]. Qed.

Lemma set_things_events_same s :
  mkSession (committed s)
    (set_things_events (λ _, things_events (pending s)) (pending s)) = s.
Proof. by destruct s as [c []]. Qed.

Lemma length_list_remove_first {A} `{EqDecision A} (x : A) (l : list A) :
  (length (list_remove_first x l) ≤ length l)%nat.
Proof. induction l as [|y l IH]; simpl; [done|]. case_decide; simpl; lia. Qed.

Lemma length_list_remove_first_elem {A} `{EqDecision A} (x : A) (l : list A) :
  x ∈ l → (length (list_remove_first x l) < length l)%nat.
Proof.
  induction l as [|y l IH]; simpl; intros Hx.
  - by apply elem_of_nil in Hx.
  - case_decide; simpl; [lia|].
    apply elem_of_cons in Hx as [->|Hx]; [done|]. specialize (IH Hx). lia.
Qed.

(** A tag of [e.tags] comes from a row of [events_tags]. *)
Lemma Event_tags_row db event_id t :
  t ∈ Event_tags db event_id → (event_id, Tag.id t) ∈ events_tags db.
Proof.
  unfold Event_tags. intros Ht.
  apply list_elem_of_bind in Ht as ([ev tg] & Ht & Hr). simpl in Ht.
  case_bool_decide; [|by apply elem_of_nil in Ht]. subst ev.
  apply list_elem_of_filter in Ht as [-> _]. done.
Qed.

Lemma Event_things_row db event_id t :
  t ∈ Event_things db event_id → (Thing.id t, event_id) ∈ things_events db.
Proof.
  unfold Event_things. intros Ht.
  apply list_elem_of_bind in Ht as ([th ev] & Ht & Hr). simpl in Ht.
  case_bool_decide; [|by apply elem_of_nil in Ht]. subst ev.
  apply list_elem_of_filter in Ht as [-> _]. done.
Qed.

Section association.
Import EventsApi.

(** The removal loop always ends normally, only shrinks [events_tags], and
    removes a row as soon as a tag with the id is met within the fuel. *)
Lemma tags_remove_loop_run fuel event_id tag_id i s :
  ∃ rows,
    tags_remove_loop fuel event_id tag_id i s
    = (Return (), mkSession (committed s) (set_events_tags (λ _, rows) (pending s)))
    ∧ (length rows ≤ length (events_tags (pending s)))%nat
    ∧ ((∃ j t, (i ≤ j < i + fuel)%nat
               ∧ Event_tags (pending s) event_id !! j = Some t ∧ Tag.id t = tag_id) →
       (length rows < length (events_tags (pending s)))%nat).
Proof.
  revert i s. induction fuel as [|fuel IH]; intros i s.
  - exists (events_tags (pending s)). simpl. split_and!.
    + unfold mret, M_ret. by rewrite set_events_tags_same.
    + done.
    + intros (j & t & ? & _). lia.
  - simpl. rewrite M_bind_unfold. simpl.
    destruct (Event_tags (pending s) event_id !! i) as [tag|] eqn:Hi.
    + rewrite M_bind_unfold. case_bool_decide as Hid; simpl.
      * unfold tags_remove, modify. simpl.
        destruct (IH (S i) (mkSession (committed s)
                    (set_events_tags (list_remove_first (event_id, Tag.id tag))
                       (pending s)))) as (rows & Hrun & Hle & _).
        exists rows. simpl in *. rewrite Hrun, set_events_tags_const.
        assert (length (list_remove_first (event_id, Tag.id tag) (events_tags (pending s)))
                < length (events_tags (pending s)))%nat.
        { apply length_list_remove_first_elem, Event_tags_row.
          by eapply list_elem_of_lookup_2. }
        split_and!; [done|lia|intros _; lia].
      * unfold mret, M_ret.
        destruct (IH (S i) s) as (rows & Hrun & Hle & Hlt).
        exists rows. split_and!; [done..|].
        intros (j & t & Hj & Ht & Htid). apply Hlt. exists j, t. split; [|done].
        destruct (decide (j = i)) as [->|]; [congruence|lia].
    + exists (events_tags (pending s)). split_and!.
      * unfold mret, M_ret. by rewrite set_events_tags_same.
      * done.
      * intros (j & t & Hj & Ht & _). apply lookup_ge_None in Hi.
        apply lookup_lt_Some in Ht. lia.
Qed.

Lemma things_remove_loop_run fuel event_id thing_id i s :
  ∃ rows,
    things_remove_loop fuel event_id thing_id i s
    = (Return (), mkSession (committed s) (set_things_events (λ _, rows) (pending s)))
    ∧ (length rows ≤ length (things_events (pending s)))%nat
    ∧ ((∃ j t, (i ≤ j < i + fuel)%nat
               ∧ Event_things (pending s) event_id !! j = Some t ∧ Thing.id t = thing_id) →
       (length rows < length (things_events (pending s)))%nat).
Proof.
  revert i s. induction fuel as [|fuel IH]; intros i s.
  - exists (things_events (pending s)). simpl. split_and!.
    + unfold mret, M_ret. by rewrite set_things_events_same.
    + done.
    + intros (j & t & ? & _). lia.
  - simpl. rewrite M_bind_unfold. simpl.
    destruct (Event_things (pending s) event_id !! i) as [thing|] eqn:Hi.
    + rewrite M_bind_unfold. case_bool_decide as Hid; simpl.
      * unfold things_remove, modify. simpl.
        destruct (IH (S i) (mkSession (committed s)
                    (set_things_events (list_remove_first (Thing.id thing, event_id))
                       (pending s)))) as (rows & Hrun & Hle & _).
        exists rows. simpl in *. rewrite Hrun, set_things_events_const.
        assert (length (list_remove_first (Thing.id thing, event_id)
                          (things_events (pending s)))
                < length (things_events (pending s)))%nat.
        { apply length_list_remove_first_elem, Event_things_row.
          by eapply list_elem_of_lookup_2. }
        split_and!; [done|lia|intros _; lia].
      * unfold mret, M_ret.
        destruct (IH (S i) s) as (rows & Hrun & Hle & Hlt).
        exists rows. split_and!; [done..|].
        intros (j & t & Hj & Ht & Htid). apply Hlt. exists j, t. split; [|done].
        destruct (decide (j = i)) as [->|]; [congruence|lia].
    + exists (things_events (pending s)). split_and!.
      * unfold mret, M_ret. by rewrite set_things_events_same.
      * done.
      * intros (j & t & Hj & Ht & _). apply lookup_ge_None in Hi.
        apply lookup_lt_Some in Ht. lia.
Qed.

Definition approve_before_tags : Error :=
  RequestError "You must first approve an Event before adding additional Tags.".
Definition approve_before_things : Error :=
  RequestError "You must first approve an Event before adding additional Things.".

Lemma event_add_tag_unapproved now org_id event_id tag_id db i ev :
  Event_lookup db org_id event_id = Some (i, ev) →
  attr ev "status" ≠ VStr "approved" →
  run (event_add_tag now org_id event_id tag_id) db = (Raise approve_before_tags, db).
Proof.
  intros Hfind Hst. pose proof (Event_lookup_Some _ _ _ _ _ Hfind) as (Hi & _ & _).
  unfold run, event_add_tag, Event_first, load.
  rewrite M_bind_unfold. simpl. rewrite Hfind. simpl.
  rewrite M_bind_unfold. simpl. rewrite Hi. simpl.
  by rewrite bool_decide_eq_true_2.
Qed.

Lemma event_add_thing_unapproved now org_id event_id thing_id db i ev :
  Event_lookup db org_id event_id = Some (i, ev) →
  attr ev "status" ≠ VStr "approved" →
  run (event_add_thing now org_id event_id thing_id) db = (Raise approve_before_things, db).
Proof.
  intros Hfind Hst. pose proof (Event_lookup_Some _ _ _ _ _ Hfind) as (Hi & _ & _).
  unfold run, event_add_thing, Event_first, load.
  rewrite M_bind_unfold. simpl. rewrite Hfind. simpl.
  rewrite M_bind_unfold. simpl. rewrite Hi. simpl.
  by rewrite bool_decide_eq_true_2.
Qed.

(** Removing a tag looks at the association only, never at the status. *)
Lemma event_delete_tag_run now org_id event_id tag_id db i ev :
  Event_lookup db org_id event_id = Some (i, ev) →
  if bool_decide (tag_id ∈ Event_tag_ids db event_id)
  then ∃ ev' db',
         run (event_delete_tag now org_id event_id tag_id) db = (Return ev', db')
         ∧ (length (events_tags db') < length (events_tags db))%nat
  else run (event_delete_tag now org_id event_id tag_id) db
       = (Raise (no_association "Tag" event_id tag_id), db).
Proof.
  intros Hfind. unfold run, event_delete_tag, Event_first, Event_tag_ids.
  rewrite M_bind_unfold. simpl. rewrite Hfind. simpl.
  rewrite M_bind_unfold. simpl.
  case_bool_decide as Hin.
  - rewrite bool_decide_eq_false_2 by (by intros ?).
    rewrite M_bind_unfold.
    destruct (tags_remove_loop_run (length (Event_tags db event_id)) event_id tag_id 0
                (begin db)) as (rows & Hrun & _ & Hlt).
    rewrite Hrun. unfold setattr, load. session_simpl.
    eexists _, _. split; [done|]. simpl. apply Hlt.
    apply list_elem_of_fmap in Hin as (t & -> & Ht).
    apply list_elem_of_lookup in Ht as (j & Hj).
    exists j, t. split; [|done].
    apply lookup_lt_Some in Hj. lia.
  - by rewrite bool_decide_eq_true_2.
Qed.

Lemma event_delete_thing_run now org_id event_id thing_id db i ev :
  Event_lookup db org_id event_id = Some (i, ev) →
  if bool_decide (thing_id ∈ Event_thing_ids db event_id)
  then ∃ ev' db',
         run (event_delete_thing now org_id event_id thing_id) db = (Return ev', db')
         ∧ (length (things_events db') < length (things_events db))%nat
  else run (event_delete_thing now org_id event_id thing_id) db
       = (Raise (no_association "Thing" event_id thing_id), db).
Proof.
  intros Hfind. unfold run, event_delete_thing, Event_first, Event_thing_ids.
  rewrite M_bind_unfold. simpl. rewrite Hfind. simpl.
  rewrite M_bind_unfold. simpl.
  case_bool_decide as Hin.
  - rewrite bool_decide_eq_false_2 by (by intros ?).
    rewrite M_bind_unfold.
    destruct (things_remove_loop_run (length (Event_things db event_id)) event_id
                thing_id 0 (begin db)) as (rows & Hrun & _ & Hlt).
    rewrite Hrun. unfold setattr, load. session_simpl.
    eexists _, _. split; [done|]. simpl. apply Hlt.
    apply list_elem_of_fmap in Hin as (t & -> & Ht).
    apply list_elem_of_lookup in Ht as (j & Hj).
    exists j, t. split; [|done].
    apply lookup_lt_Some in Hj. lia.
  - by rewrite bool_decide_eq_true_2.
Qed.

Lemma length_list_remove_first_S {A} `{EqDecision A} (x : A) (l : list A) :
  x ∈ l → (length (list_remove_first x l) + 1 = length l)%nat.
Proof.
  induction l as [|y l IH]; simpl; intros Hx.
  - by apply elem_of_nil in Hx.
  - case_decide; simpl; [lia|].
    apply elem_of_cons in Hx as [->|Hx]; [done|]. specialize (IH Hx). lia.
Qed.

Lemma list_remove_first_notin {A} `{EqDecision A} (x : A) (l : list A) :
  x ∉ l → list_remove_first x l = l.
Proof.
  induction l as [|y l IH]; simpl; intros Hx; [done|].
  apply not_elem_of_cons in Hx as [Hne Hx].
  rewrite decide_False by done. by rewrite IH.
Qed.

Lemma list_remove_first_NoDup {A} `{EqDecision A} (x : A) (l : list A) :
  NoDup l → x ∉ list_remove_first x l.
Proof.
  induction 1 as [|y l Hy Hnd IH]; simpl; [apply not_elem_of_nil|].
  case_decide as Heq; [by subst|].
  apply not_elem_of_cons. split; [congruence|done].
Qed.

(** Removing a row [n] times gives a list [n] rows shorter only when the
    row was there each time; in a list without repeated rows that is at
    most once. *)
Lemma iter_remove_first_NoDup {A} `{EqDecision A} (x : A) (l : list A) n :
  NoDup l → (1 ≤ n)%nat →
  (length (Nat.iter n (list_remove_first x) l) + n = length l)%nat →
  x ∉ Nat.iter n (list_remove_first x) l.
Proof.
  intros Hnd Hn Hlen. destruct n as [|n]; [lia|]. clear Hn.
  rewrite Nat.iter_succ_r in *.
  pose proof (list_remove_first_NoDup x l Hnd) as Hnotin.
  assert (∀ m k, x ∉ k → Nat.iter m (list_remove_first x) k = k) as Hid.
  { induction m as [|m IH]; intros k Hk; simpl; [done|].
    rewrite IH by done. by apply list_remove_first_notin. }
  by rewrite Hid.
Qed.

Section removal.
Import EventsApi.

(** The loop that removes a tag ends normally and removes rows
    [(event_id, tag_id)] only, one for each tag with the id it meets. *)
Lemma tags_remove_loop_rows fuel event_id tag_id i s :
  ∃ n,
    tags_remove_loop fuel event_id tag_id i s
    = (Return (), mkSession (committed s)
         (set_events_tags
            (λ _, Nat.iter n (list_remove_first (event_id, tag_id))
                    (events_tags (pending s))) (pending s)))
    ∧ (length (Nat.iter n (list_remove_first (event_id, tag_id))
                 (events_tags (pending s))) + n
       = length (events_tags (pending s)))%nat
    ∧ ((∃ j t, (i ≤ j < i + fuel)%nat
               ∧ Event_tags (pending s) event_id !! j = Some t ∧ Tag.id t = tag_id) →
       (1 ≤ n)%nat).
Proof.
  revert i s. induction fuel as [|fuel IH]; intros i s.
  - exists 0%nat. simpl. split_and!.
    + unfold mret, M_ret. by rewrite set_events_tags_same.
    + lia.
    + intros (j & t & ? & _). lia.
  - simpl. rewrite M_bind_unfold. simpl.
    destruct (Event_tags (pending s) event_id !! i) as [tag|] eqn:Hi.
    + rewrite M_bind_unfold. case_bool_decide as Hid; simpl.
      * unfold tags_remove, modify. simpl. rewrite Hid.
        destruct (IH (S i) (mkSession (committed s)
                    (set_events_tags (list_remove_first (event_id, tag_id))
                       (pending s)))) as (n & Hrun & Hlen & _).
        assert ((event_id, tag_id) ∈ events_tags (pending s)) as Hrow.
        { rewrite <-Hid. apply Event_tags_row. by eapply list_elem_of_lookup_2. }
        apply length_list_remove_first_S in Hrow.
        exists (S n). rewrite !Nat.iter_succ_r. simpl in Hrun, Hlen.
        rewrite Hrun, set_events_tags_const.
        split_and!; [done|lia|intros _; lia].
      * unfold mret, M_ret.
        destruct (IH (S i) s) as (n & Hrun & Hlen & Hge).
        exists n. split_and!; [done..|].
        intros (j & t & Hj & Ht & Htid). apply Hge. exists j, t. split; [|done].
        destruct (decide (j = i)) as [->|]; [congruence|lia].
    + exists 0%nat. simpl. split_and!.
      * unfold mret, M_ret. by rewrite set_events_tags_same.
      * lia.
      * intros (j & t & Hj & Ht & _). apply lookup_ge_None in Hi.
        apply lookup_lt_Some in Ht. lia.
Qed.

Lemma things_remove_loop_rows fuel event_id thing_id i s :
  ∃ n,
    things_remove_loop fuel event_id thing_id i s
    = (Return (), mkSession (committed s)
         (set_things_events
            (λ _, Nat.iter n (list_remove_first (thing_id, event_id))
                    (things_events (pending s))) (pending s)))
    ∧ (length (Nat.iter n (list_remove_first (thing_id, event_id))
                 (things_events (pending s))) + n
       = length (things_events (pending s)))%nat
    ∧ ((∃ j t, (i ≤ j < i + fuel)%nat
               ∧ Event_things (pending s) event_id !! j = Some t
               ∧ Thing.id t = thing_id) →
       (1 ≤ n)%nat).
Proof.
  revert i s. induction fuel as [|fuel IH]; intros i s.
  - exists 0%nat. simpl. split_and!.
    + unfold mret, M_ret. by rewrite set_things_events_same.
    + lia.
    + intros (j & t & ? & _). lia.
  - simpl. rewrite M_bind_unfold. simpl.
    destruct (Event_things (pending s) event_id !! i) as [thing|] eqn:Hi.
    + rewrite M_bind_unfold. case_bool_decide as Hid; simpl.
      * unfold things_remove, modify. simpl. rewrite Hid.
        destruct (IH (S i) (mkSession (committed s)
                    (set_things_events (list_remove_first (thing_id, event_id))
                       (pending s)))) as (n & Hrun & Hlen & _).
        assert ((thing_id, event_id) ∈ things_events (pending s)) as Hrow.
        { rewrite <-Hid. apply Event_things_row. by eapply list_elem_of_lookup_2. }
        apply length_list_remove_first_S in Hrow.
        exists (S n). rewrite !Nat.iter_succ_r. simpl in Hrun, Hlen.
        rewrite Hrun, set_things_events_const.
        split_and!; [done|lia|intros _; lia].
      * unfold mret, M_ret.
        destruct (IH (S i) s) as (n & Hrun & Hlen & Hge).
        exists n. split_and!; [done..|].
        intros (j & t & Hj & Ht & Htid). apply Hge. exists j, t. split; [|done].
        destruct (decide (j = i)) as [->|]; [congruence|lia].
    + exists 0%nat. simpl. split_and!.
      * unfold mret, M_ret. by rewrite set_things_events_same.
      * lia.
      * intros (j & t & Hj & Ht & _). apply lookup_ge_None in Hi.
        apply lookup_lt_Some in Ht. lia.
Qed.

(** Removing a tag that the event has: the view succeeds, stamps the event,
    and takes out of [events_tags] one or more rows, each of them the row
    [(event_id, tag_id)]; nothing else changes. *)
Lemma event_delete_tag_removes now org_id event_id tag_id db i ev :
  Event_lookup db org_id event_id = Some (i, ev) →
  tag_id ∈ Event_tag_ids db event_id →
  ∃ n, (1 ≤ n)%nat
    ∧ run (event_delete_tag now org_id event_id tag_id) db
      = (Return (<["updated" := VDate now]> ev),
         set_events (<[i := <["updated" := VDate now]> ev]>)
           (set_events_tags
              (λ _, Nat.iter n (list_remove_first (event_id, tag_id)) (events_tags db))
              db))
    ∧ (length (Nat.iter n (list_remove_first (event_id, tag_id)) (events_tags db)) + n
       = length (events_tags db))%nat
    ∧ (NoDup (events_tags db) →
       tag_id ∉ Event_tag_ids
                  (set_events_tags
                     (λ _, Nat.iter n (list_remove_first (event_id, tag_id))
                             (events_tags db)) db) event_id).
Proof.
  intros Hfind Hin. pose proof (Event_lookup_Some _ _ _ _ _ Hfind) as (Hi & _ & _).
  destruct (tags_remove_loop_rows (length (Event_tags db event_id)) event_id tag_id 0
              (begin db)) as (n & Hrun & Hlen & Hge).
  simpl in Hrun, Hlen, Hge.
  exists n. split_and!.
  - apply Hge. unfold Event_tag_ids in Hin.
    apply list_elem_of_fmap in Hin as (t & -> & Ht).
    apply list_elem_of_lookup in Ht as (j & Hj).
    exists j, t. split; [|done]. apply lookup_lt_Some in Hj. lia.
  - unfold run, event_delete_tag, Event_first.
    rewrite M_bind_unfold. simpl. rewrite Hfind. simpl.
    rewrite M_bind_unfold. simpl.
    rewrite bool_decide_eq_false_2 by (intros Hnot; by apply Hnot).
    rewrite M_bind_unfold, Hrun. unfold setattr, load. session_simpl.
    unfold set_events, set_events_tags, set_things_events. simpl.
    rewrite (alter_lookup _ _ _ ev) by done.
    rewrite list_lookup_insert_eq by (by eapply lookup_lt_Some). done.
  - done.
  - intros Hnd Hmem. unfold Event_tag_ids in Hmem.
    apply list_elem_of_fmap in Hmem as (t & -> & Ht).
    apply Event_tags_row in Ht. simpl in Ht.
    revert Ht. apply iter_remove_first_NoDup; [done| |done].
    apply Hge. unfold Event_tag_ids in Hin.
    apply list_elem_of_fmap in Hin as (t' & Heq & Ht').
    apply list_elem_of_lookup in Ht' as (j & Hj).
    exists j, t'. split; [|done]. apply lookup_lt_Some in Hj. lia.
Qed.

Lemma event_delete_thing_removes now org_id event_id thing_id db i ev :
  Event_lookup db org_id event_id = Some (i, ev) →
  thing_id ∈ Event_thing_ids db event_id →
  ∃ n, (1 ≤ n)%nat
    ∧ run (event_delete_thing now org_id event_id thing_id) db
      = (Return (<["updated" := VDate now]> ev),
         set_events (<[i := <["updated" := VDate now]> ev]>)
           (set_things_events
              (λ _, Nat.iter n (list_remove_first (thing_id, event_id))
                      (things_events db)) db))
    ∧ (length (Nat.iter n (list_remove_first (thing_id, event_id)) (things_events db))
       + n = length (things_events db))%nat
    ∧ (NoDup (things_events db) →
       thing_id ∉ Event_thing_ids
                    (set_things_events
                       (λ _, Nat.iter n (list_remove_first (thing_id, event_id))
                               (things_events db)) db) event_id).
Proof.
  intros Hfind Hin. pose proof (Event_lookup_Some _ _ _ _ _ Hfind) as (Hi & _ & _).
  destruct (things_remove_loop_rows (length (Event_things db event_id)) event_id
              thing_id 0 (begin db)) as (n & Hrun & Hlen & Hge).
  simpl in Hrun, Hlen, Hge.
  exists n. split_and!.
  - apply Hge. unfold Event_thing_ids in Hin.
    apply list_elem_of_fmap in Hin as (t & -> & Ht).
    apply list_elem_of_lookup in Ht as (j & Hj).
    exists j, t. split; [|done]. apply lookup_lt_Some in Hj. lia.
  - unfold run, event_delete_thing, Event_first.
    rewrite M_bind_unfold. simpl. rewrite Hfind. simpl.
    rewrite M_bind_unfold. simpl.
    rewrite bool_decide_eq_false_2 by (intros Hnot; by apply Hnot).
    rewrite M_bind_unfold, Hrun. unfold setattr, load. session_simpl.
    unfold set_events, set_events_tags, set_things_events. simpl.
    rewrite (alter_lookup _ _ _ ev) by done.
    rewrite list_lookup_insert_eq by (by eapply lookup_lt_Some). done.
  - done.
  - intros Hnd Hmem. unfold Event_thing_ids in Hmem.
    apply list_elem_of_fmap in Hmem as (t & -> & Ht).
    apply Event_things_row in Ht. simpl in Ht.
    revert Ht. apply iter_remove_first_NoDup; [done| |done].
    apply Hge. unfold Event_thing_ids in Hin.
    apply list_elem_of_fmap in Hin as (t' & Heq & Ht').
    apply list_elem_of_lookup in Ht' as (j & Hj).
    exists j, t'. split; [|done]. apply lookup_lt_Some in Hj. lia.
Qed.

End removal.

(** C7, as the code has it: on an event that is not approved, adding a tag
    and adding a thing fail and change nothing.  Removing a tag or a thing
    does not look at the status: it fails, and changes nothing, when the
    event has no association with that id.  Otherwise it succeeds: it
    takes out of the association table one or more rows, each of them the
    row that joins this event to the given id, stamps the event's
    [updated], and leaves every other row and table as it was; when the
    table has no repeated row, the event is no longer associated with the
    id. *)
Theorem association_endpoints_unapproved now org_id event_id other_id db i ev :
  Event_lookup db org_id event_id = Some (i, ev) →
  attr ev "status" ≠ VStr "approved" →
  run (event_add_tag now org_id event_id other_id) db = (Raise approve_before_tags, db)
  ∧ run (event_add_thing now org_id event_id other_id) db
    = (Raise approve_before_things, db)
  ∧ (if bool_decide (other_id ∈ Event_tag_ids db event_id)
     then ∃ n, (1 ≤ n)%nat
            ∧ run (event_delete_tag now org_id event_id other_id) db
              = (Return (<["updated" := VDate now]> ev),
                 set_events (<[i := <["updated" := VDate now]> ev]>)
                   (set_events_tags
                      (λ _, Nat.iter n (list_remove_first (event_id, other_id))
                              (events_tags db)) db))
            ∧ (length (Nat.iter n (list_remove_first (event_id, other_id))
                         (events_tags db)) + n
               = length (events_tags db))%nat
            ∧ (NoDup (events_tags db) →
               other_id ∉ Event_tag_ids
                            (set_events_tags
                               (λ _, Nat.iter n (list_remove_first (event_id, other_id))
                                       (events_tags db)) db) event_id)
     else run (event_delete_tag now org_id event_id other_id) db
          = (Raise (no_association "Tag" event_id other_id), db))
  ∧ (if bool_decide (other_id ∈ Event_thing_ids db event_id)
     then ∃ n, (1 ≤ n)%nat
            ∧ run (event_delete_thing now org_id event_id other_id) db
              = (Return (<["updated" := VDate now]> ev),
                 set_events (<[i := <["updated" := VDate now]> ev]>)
                   (set_things_events
                      (λ _, Nat.iter n (list_remove_first (other_id, event_id))
                              (things_events db)) db))
            ∧ (length (Nat.iter n (list_remove_first (other_id, event_id))
                         (things_events db)) + n
               = length (things_events db))%nat
            ∧ (NoDup (things_events db) →
               other_id ∉ Event_thing_ids
                            (set_things_events
                               (λ _, Nat.iter n (list_remove_first (other_id, event_id))
                                       (things_events db)) db) event_id)
     else run (event_delete_thing now org_id event_id other_id) db
          = (Raise (no_association "Thing" event_id other_id), db)).
Proof.
  intros Hfind Hst. split_and!.
  - by eapply event_add_tag_unapproved.
  - by eapply event_add_thing_unapproved.
  - pose proof (event_delete_tag_run now org_id event_id other_id db i ev Hfind) as H.
    case_bool_decide; [|done]. by apply event_delete_tag_removes.
  - pose proof (event_delete_thing_run now org_id event_id other_id db i ev Hfind) as H.
    case_bool_decide; [|done]. by apply event_delete_thing_removes.
Qed.

End association.

Section association_examples.
Import EventsApi.

(** The claim as written fails: an approved event whose status an update
    sets back to ['pending'] keeps its tag, and the tag can then be removed
    although the event is not approved. *)
Lemma association_endpoints_unapproved_counterexample :
  ∃ ev1 db1 ev2 db2 ev3 db3,
    run (event_update Sample.columns 100 7 1 (mkRequest ∅ [1] [1])) Sample.db
    = (Return ev1, db1)
    ∧ run (event_update Sample.columns 101 7 1
             (mkRequest {[ "status" := VStr "pending" ]} [] [])) db1
      = (Return ev2, db2)
    ∧ attr ev2 "status" = VStr "pending"
    ∧ Event_tag_ids db2 1 = [1]
    ∧ run (event_delete_tag 102 7 1 1) db2 = (Return ev3, db3)
    ∧ attr ev3 "status" = VStr "pending"
    ∧ Event_tag_ids db3 1 = [].
Proof.
  eexists _, _, _, _, _, _.
  split; [vm_compute; reflexivity|].
  split; [vm_compute; reflexivity|].
  split; [vm_compute; reflexivity|].
  split; [vm_compute; reflexivity|].
  split; [vm_compute; reflexivity|].
  split; vm_compute; reflexivity.
Qed.

Lemma association_endpoints_unapproved_witness :
  Event_lookup Sample.tagged_db 7 1 = Some (0%nat, Sample.ev1)
  ∧ attr Sample.ev1 "status" = VStr "pending"
  ∧ Event_tag_ids Sample.tagged_db 1 = [1]
  ∧ run (event_add_tag 100 7 1 1) Sample.tagged_db
    = (Raise approve_before_tags, Sample.tagged_db)
  ∧ run (event_add_thing 100 7 1 1) Sample.tagged_db
    = (Raise approve_before_things, Sample.tagged_db)
  ∧ (∃ n, (1 ≤ n)%nat
       ∧ run (event_delete_tag 100 7 1 1) Sample.tagged_db
         = (Return (<["updated" := VDate 100]> Sample.ev1),
            set_events (<[0%nat := <["updated" := VDate 100]> Sample.ev1]>)
              (set_events_tags
                 (λ _, Nat.iter n (list_remove_first (1, 1))
                         (events_tags Sample.tagged_db)) Sample.tagged_db))
       ∧ (length (Nat.iter n (list_remove_first (1%Z, 1%Z))
                    (events_tags Sample.tagged_db)) + n
          = length (events_tags Sample.tagged_db))%nat
       ∧ (NoDup (events_tags Sample.tagged_db) →
          1 ∉ Event_tag_ids
                (set_events_tags
                   (λ _, Nat.iter n (list_remove_first (1, 1))
                           (events_tags Sample.tagged_db)) Sample.tagged_db) 1))
  ∧ run (event_delete_tag 100 7 1 2) Sample.tagged_db
    = (Raise (no_association "Tag" 1 2), Sample.tagged_db).
Proof.
  split; [reflexivity|]. split; [reflexivity|]. split; [reflexivity|].
  destruct (association_endpoints_unapproved 100 7 1 1 Sample.tagged_db 0%nat Sample.ev1
              eq_refl ltac:(vm_compute; discriminate)) as (Hadd_tag & Hadd_thing & Hdel & _).
  destruct (association_endpoints_unapproved 100 7 1 2 Sample.tagged_db 0%nat Sample.ev1
              eq_refl ltac:(vm_compute; discriminate)) as (_ & _ & Hdel2 & _).
  split; [exact Hadd_tag|]. split; [exact Hadd_thing|].
  split; [exact Hdel|exact Hdel2].
Defined.

End association_examples.

(** ** Content items *)

Section content.
Import ContentApi.

(** A content item that is missing makes the view look up [event_id], a
    name it never binds. *)
Lemma content_items_missing globals db org_id content_item_id :
  globals !! "event_id" = None →
  (∀ c, c ∈ content db → ContentItem.id c = content_item_id →
        ContentItem.org_id c ≠ Some org_id) →
  content_items globals db org_id content_item_id = Raise (NameError "event_id").
Proof.
  intros Hglobal Hmissing. unfold content_items, where_.
  rewrite (filter_none _ (content db)).
  - simpl. unfold resolve. rewrite lookup_singleton_ne by done. by rewrite Hglobal.
  - intros c Hc. specialize (Hmissing c Hc). simpl.
    case_bool_decide as Hid; simpl; [|done].
    specialize (Hmissing Hid). unfold col_eq.
    destruct (ContentItem.org_id c) as [o|]; simpl; [|done].
    rewrite bool_decide_eq_false_2; [done|congruence].
Qed.

(** C8, at a request the code answers with an unrelated failure: content
    item 5 does not exist, and the view raises [NameError] for [event_id]
    where a [NotFoundError] naming 5 was meant. *)
Theorem content_items_not_found_raises_NameError :
  where_ (λ c, Some (bool_decide (ContentItem.id c = 5))) (content Sample.db) = []
  ∧ content_items ∅ Sample.db 7 5 = Raise (NameError "event_id").
Proof. split; reflexivity. Qed.

(** C2, at a request the code answers against the claim: the search
    includes category [promotion] and excludes category [citation]; the
    item it returns is joined to event 1, which carries a tag of the
    excluded category. *)
Theorem exclude_categories_keeps_excluded :
  apply_content_item_filters Sample.search_content Sample.regex_match
    Sample.content_db (content Sample.content_db)
    (Sample.categories_kw ["promotion"] ["citation"])
  = Return ([Sample.item10], [])
  ∧ ContentItem_event_ids Sample.content_db Sample.item10 = [1]
  ∧ category_event_ids Sample.content_db 7 ["citation"] = [1].
Proof. split_and!; vm_compute; reflexivity. Qed.


End content.

(** ** Exclusion without inclusion *)



Section exclusion.
Import ContentApi.
Variable search : string → vector → bool → list ContentItem.t → list ContentItem.t.
Variable regex_match : string → string → bool.






End exclusion.

Section exclusion_examples.
Import ContentApi.


End exclusion_examples.

(** * Further properties of the views *)

(** ** Event searches *)

Section event_search.
Import EventsApi.
Variable search : string → list Event → list Event.

(** The inclusion and exclusion lists of an event search: a returned event
    has a recipe, a tag and a thing of each inclusion list that is given,
    and none of an exclusion list that is given. *)
Theorem apply_event_filters_lists db q kw e :
  e ∈ apply_event_filters search db q kw →
  (include_recipes kw ≠ [] → attr e "recipe_id" ∈ VInt <$> include_recipes kw)
  ∧ (exclude_recipes kw ≠ [] → attr e "recipe_id" ∉ VInt <$> exclude_recipes kw)
  ∧ (include_tags kw ≠ [] →
     Exists (λ r : Z * Z, attr e "id" = VInt r.1 ∧ r.2 ∈ include_tags kw
                          ∧ r.2 ∈ Tag.id <$> tags db) (events_tags db))
  ∧ (exclude_tags kw ≠ [] →
     ¬ Exists (λ r : Z * Z, attr e "id" = VInt r.1 ∧ r.2 ∈ exclude_tags kw
                            ∧ r.2 ∈ Tag.id <$> tags db) (events_tags db))
  ∧ (include_things kw ≠ [] →
     Exists (λ r : Z * Z, attr e "id" = VInt r.2 ∧ r.1 ∈ include_things kw
                          ∧ r.1 ∈ Thing.id <$> things db) (things_events db))
  ∧ (exclude_things kw ≠ [] →
     ¬ Exists (λ r : Z * Z, attr e "id" = VInt r.2 ∧ r.1 ∈ exclude_things kw
                            ∧ r.1 ∈ Thing.id <$> things db) (things_events db)).
Proof.
  unfold apply_event_filters. cbv zeta. intros He.
  do 2 apply filter_if_subseteq in He.
  pose proof He as Hexc_things. apply filter_if_subseteq in He.
  pose proof He as Hinc_things. apply filter_if_subseteq in He.
  pose proof He as Hexc_tags. apply filter_if_subseteq in He.
  pose proof He as Hinc_tags. apply filter_if_subseteq in He.
  pose proof He as Hexc_recipes. apply filter_if_subseteq in He.
  pose proof He as Hinc_recipes. clear He.
  assert (∀ A (l : list A), l ≠ [] → bool_decide (length l ≠ 0%nat) = true) as Hlen.
  { intros A l Hl. apply bool_decide_eq_true_2. by rewrite length_zero_iff_nil. }
  split_and!; intros Hne.
  - eapply elem_of_filter_if in Hinc_recipes; [|by apply Hlen].
    unfold in_ in Hinc_recipes.
    destruct (attr e "recipe_id"); try done;
      injection Hinc_recipes as H; by apply bool_decide_eq_true_1 in H.
  - eapply elem_of_filter_if in Hexc_recipes; [|by apply Hlen].
    unfold in_, sql_not in Hexc_recipes.
    destruct (attr e "recipe_id"); try done; simpl in Hexc_recipes;
      injection Hexc_recipes as H; apply negb_true_iff in H;
      by apply bool_decide_eq_false_1 in H.
  - eapply elem_of_filter_if in Hinc_tags; [|by apply Hlen].
    injection Hinc_tags as H. by apply bool_decide_eq_true_1 in H.
  - eapply elem_of_filter_if in Hexc_tags; [|by apply Hlen].
    injection Hexc_tags as H. apply negb_true_iff in H.
    by apply bool_decide_eq_false_1 in H.
  - eapply elem_of_filter_if in Hinc_things; [|by apply Hlen].
    injection Hinc_things as H. by apply bool_decide_eq_true_1 in H.
  - eapply elem_of_filter_if in Hexc_things; [|by apply Hlen].
    injection Hexc_things as H. apply negb_true_iff in H.
    by apply bool_decide_eq_false_1 in H.
Qed.

End event_search.

Section event_search_scope.
Import EventsApi.
Variable search : string → list Event → list Event.

Lemma elem_of_filter_some {A B} (t : option B) (cond : B → A → option bool) q x b :
  x ∈ filter_some t cond q → t = Some b → cond b x = Some true.
Proof. intros Hx ->. simpl in Hx. apply elem_of_where in Hx. tauto. Qed.

(** Scope of an event search whose full-text search only selects rows: a
    returned event is a row of the base query, belongs to the organization,
    has the requested status unless that is ['all'], and lies within the
    date bounds that are given, bounds included. *)
Theorem apply_event_filters_scope db q kw e :
  (∀ s q' x, x ∈ search s q' → x ∈ q') →
  e ∈ apply_event_filters search db q kw →
  e ∈ q
  ∧ attr e "organization_id" = VInt (org kw)
  ∧ (status kw ≠ "all" → attr e "status" = VStr (status kw))
  ∧ (∀ t, created_after kw = Some t → ∃ y, attr e "created" = VDate y ∧ t ≤ y)
  ∧ (∀ t, created_before kw = Some t → ∃ y, attr e "created" = VDate y ∧ y ≤ t)
  ∧ (∀ t, updated_after kw = Some t → ∃ y, attr e "updated" = VDate y ∧ t ≤ y)
  ∧ (∀ t, updated_before kw = Some t → ∃ y, attr e "updated" = VDate y ∧ y ≤ t).
Proof.
  intros Hsearch He.
  pose proof (apply_event_filters_status search db q kw e He) as Hstatus.
  unfold apply_event_filters in He. cbv zeta in He.
  do 8 apply filter_if_subseteq in He.
  pose proof He as Hub. apply filter_some_subseteq in He.
  pose proof He as Hua. apply filter_some_subseteq in He.
  pose proof He as Hcb. apply filter_some_subseteq in He.
  pose proof He as Hca. apply filter_some_subseteq in He.
  apply filter_if_subseteq in He.
  assert (e ∈ where_ (λ e, val_eq (attr e "organization_id") (VInt (org kw))) q) as Horg.
  { destruct (truthy (search_query kw)); [by eapply Hsearch|done]. }
  apply elem_of_where in Horg as [Horg Hq].
  assert (∀ v t, date_ge v t = Some true → ∃ y, v = VDate y ∧ t ≤ y) as Hge.
  { intros v t H. destruct v; try done.
    injection H as H. apply bool_decide_eq_true_1 in H. eauto. }
  assert (∀ v t, date_le v t = Some true → ∃ y, v = VDate y ∧ y ≤ t) as Hle.
  { intros v t H. destruct v; try done.
    injection H as H. apply bool_decide_eq_true_1 in H. eauto. }
  split_and!; [done| |done|..].
  - unfold val_eq in Horg. destruct (attr e "organization_id"); try done.
    injection Horg as H. by apply bool_decide_eq_true_1 in H.
  - intros t Ht. apply Hge. by eapply (elem_of_filter_some _ _ _ _ t) in Hca.
  - intros t Ht. apply Hle. by eapply (elem_of_filter_some _ _ _ _ t) in Hcb.
  - intros t Ht. apply Hge. by eapply (elem_of_filter_some _ _ _ _ t) in Hua.
  - intros t Ht. apply Hle. by eapply (elem_of_filter_some _ _ _ _ t) in Hub.
Qed.


End event_search_scope.

Section event_search_examples.
Import EventsApi.

Lemma apply_event_filters_lists_witness :
  Sample.ev2 ∈ apply_event_filters Sample.search_events Sample.search_db
                 (events Sample.search_db)
                 (mkKw 7 None "all" None None None None [4] [5] [1] [2] [1] [2] [] [])
  ∧ attr Sample.ev2 "recipe_id" ∈ (VInt <$> [4])
  ∧ (attr Sample.ev2 "recipe_id" ∉ VInt <$> [5])
  ∧ ¬ Exists (λ r : Z * Z, attr Sample.ev2 "id" = VInt r.1 ∧ r.2 ∈ [2]
                           ∧ r.2 ∈ Tag.id <$> tags Sample.search_db)
        (events_tags Sample.search_db).
Proof.
  assert (Sample.ev2 ∈ apply_event_filters Sample.search_events Sample.search_db
            (events Sample.search_db)
            (mkKw 7 None "all" None None None None [4] [5] [1] [2] [1] [2] [] []))
    as Hin by (apply (bool_decide_unpack _); vm_compute; exact I).
  split; [exact Hin|].
  destruct (apply_event_filters_lists Sample.search_events _ _ _ _ Hin)
    as (H1 & H2 & _ & H4 & _).
  split; [apply H1; discriminate|].
  split; [apply H2; discriminate|].
  apply H4; discriminate.
Defined.

Lemma apply_event_filters_scope_witness :
  Sample.ev2 ∈ apply_event_filters Sample.search_events Sample.search_db
                 (events Sample.search_db)
                 (mkKw 7 None "approved" (Some 50) (Some 60) (Some 70) (Some 80)
                    [] [] [] [] [] [] [] [])
  ∧ attr Sample.ev2 "organization_id" = VInt 7
  ∧ attr Sample.ev2 "status" = VStr "approved"
  ∧ (∃ y, attr Sample.ev2 "created" = VDate y ∧ y ≤ 60)
  ∧ (∃ y, attr Sample.ev2 "updated" = VDate y ∧ 70 ≤ y).
Proof.
  assert (Sample.ev2 ∈ apply_event_filters Sample.search_events Sample.search_db
            (events Sample.search_db)
            (mkKw 7 None "approved" (Some 50) (Some 60) (Some 70) (Some 80)
               [] [] [] [] [] [] [] []))
    as Hin by (apply (bool_decide_unpack _); vm_compute; exact I).
  split; [exact Hin|].
  destruct (apply_event_filters_scope Sample.search_events _ _ _ _
              (λ _ _ _ H, H) Hin) as (_ & Horg & Hst & _ & Hcb & Hua & _).
  split; [exact Horg|].
  split; [apply Hst; discriminate|].
  split; [by apply Hcb|by apply Hua].
Defined.


End event_search_examples.

(** ** Events of the organization only *)

Section isolation.
Import EventsApi.

Lemma Event_lookup_None db org_id event_id :
  Event_lookup db org_id event_id = None ↔
  ∀ ev, ev ∈ events db →
        ¬ (attr ev "id" = VInt event_id ∧ attr ev "organization_id" = VInt org_id).
Proof.
  unfold Event_lookup. rewrite list_find_None, Forall_forall. done.
Qed.


(** The six views that change an event answer a request for an id that is
    not the id of an event of the organization with the same error, and
    leave the database as it was: none of them reaches an event of another
    organization. *)
Theorem foreign_event_untouched columns now org_id event_id req other_id db :
  Event_lookup db org_id event_id = None →
  run (event_update columns now org_id event_id req) db = (Raise (not_exist event_id), db)
  ∧ run (event_delete now org_id event_id) db = (Raise (not_exist event_id), db)
  ∧ run (event_add_tag now org_id event_id other_id) db = (Raise (not_exist event_id), db)
  ∧ run (event_delete_tag now org_id event_id other_id) db
    = (Raise (not_exist event_id), db)
  ∧ run (event_add_thing now org_id event_id other_id) db
    = (Raise (not_exist event_id), db)
  ∧ run (event_delete_thing now org_id event_id other_id) db
    = (Raise (not_exist event_id), db).
Proof.
  intros Hfind.
  unfold run, event_update, event_delete, event_add_tag, event_delete_tag,
    event_add_thing, event_delete_thing, Event_first.
  rewrite !M_bind_unfold. simpl. rewrite Hfind. done.
Qed.

Lemma foreign_event_untouched_witness :
  Sample.ev3 ∈ events Sample.search_db
  ∧ attr Sample.ev3 "organization_id" = VInt 8
  ∧ run (event_update Sample.columns 100 7 3
           (mkRequest {[ "status" := VStr "deleted" ]} [] [])) Sample.search_db
    = (Raise (not_exist 3), Sample.search_db)
  ∧ run (event_delete 100 7 3) Sample.search_db = (Raise (not_exist 3), Sample.search_db).
Proof.
  split; [apply (bool_decide_unpack _); vm_compute; exact I|].
  split; [reflexivity|].
  destruct (foreign_event_untouched Sample.columns 100 7 3
              (mkRequest {[ "status" := VStr "deleted" ]} [] []) 1 Sample.search_db)
    as (H1 & H2 & _); [reflexivity|].
  split; [exact H1|exact H2].
Defined.

End isolation.

(** ** No partial failure *)

Section atomicity.
Import EventsApi.

Lemma event_add_tag_Raise now org_id event_id tag_id db err db' :
  run (event_add_tag now org_id event_id tag_id) db = (Raise err, db') → db' = db.
Proof.
  unfold run, event_add_tag, Event_first, load, tags_append, setattr.
  session_simpl.
  repeat (case_match; simplify_eq/=; try done); by intros [= _ <-].
Qed.

Lemma event_add_thing_Raise now org_id event_id thing_id db err db' :
  run (event_add_thing now org_id event_id thing_id) db = (Raise err, db') → db' = db.
Proof.
  unfold run, event_add_thing, Event_first, load, things_append, setattr.
  session_simpl.
  repeat (case_match; simplify_eq/=; try done); by intros [= _ <-].
Qed.

Lemma event_delete_Raise now org_id event_id db err db' :
  run (event_delete now org_id event_id) db = (Raise err, db') → db' = db.
Proof.
  unfold run, event_delete, Event_first, load, setattr.
  session_simpl.
  repeat (case_match; simplify_eq/=; try done); by intros [= _ <-].
Qed.

Lemma event_delete_tag_Raise now org_id event_id tag_id db err db' :
  run (event_delete_tag now org_id event_id tag_id) db = (Raise err, db') → db' = db.
Proof.
  destruct (Event_lookup db org_id event_id) as [[i ev]|] eqn:Hfind.
  - pose proof (event_delete_tag_run now org_id event_id tag_id db i ev Hfind) as H.
    case_bool_decide.
    + destruct H as (ev' & db'' & -> & _). done.
    + rewrite H. by intros [= _ <-].
  - destruct (foreign_event_untouched [] now org_id event_id (mkRequest ∅ [] []) tag_id
                db Hfind) as (_ & _ & _ & -> & _).
    by intros [= _ <-].
Qed.

Lemma event_delete_thing_Raise now org_id event_id thing_id db err db' :
  run (event_delete_thing now org_id event_id thing_id) db = (Raise err, db') → db' = db.
Proof.
  destruct (Event_lookup db org_id event_id) as [[i ev]|] eqn:Hfind.
  - pose proof (event_delete_thing_run now org_id event_id thing_id db i ev Hfind) as H.
    case_bool_decide.
    + destruct H as (ev' & db'' & -> & _). done.
    + rewrite H. by intros [= _ <-].
  - destruct (foreign_event_untouched [] now org_id event_id (mkRequest ∅ [] []) thing_id
                db Hfind) as (_ & _ & _ & _ & _ & ->).
    by intros [= _ <-].
Qed.

(** A request to one of the six views that change an event either
    succeeds or changes nothing: when the view raises, the database it
    leaves is the database it found. *)
Theorem failed_request_changes_nothing columns now org_id event_id req other_id db err db' :
  run (event_update columns now org_id event_id req) db = (Raise err, db')
  ∨ run (event_delete now org_id event_id) db = (Raise err, db')
  ∨ run (event_add_tag now org_id event_id other_id) db = (Raise err, db')
  ∨ run (event_delete_tag now org_id event_id other_id) db = (Raise err, db')
  ∨ run (event_add_thing now org_id event_id other_id) db = (Raise err, db')
  ∨ run (event_delete_thing now org_id event_id other_id) db = (Raise err, db') →
  db' = db.
Proof.
  intros [H|[H|[H|[H|[H|H]]]]].
  - by eapply event_update_Raise.
  - by eapply event_delete_Raise.
  - by eapply event_add_tag_Raise.
  - by eapply event_delete_tag_Raise.
  - by eapply event_add_thing_Raise.
  - by eapply event_delete_thing_Raise.
Qed.

End atomicity.

Lemma failed_request_changes_nothing_witness :
  (EventsApi.approve_loop 1 [(Sample.thing1, Sample.subject_tag)]
     (begin Sample.db)).2
  ≠ begin Sample.db
  ∧ run (EventsApi.event_update Sample.columns 100 7 1 (EventsApi.mkRequest ∅ [2] [1]))
      Sample.db
    = (Raise EventsApi.impact_only, Sample.db).
Proof.
  split; [vm_compute; discriminate|].
  assert (∃ db', run (EventsApi.event_update Sample.columns 100 7 1
                        (EventsApi.mkRequest ∅ [2] [1])) Sample.db
                 = (Raise EventsApi.impact_only, db')) as [db' Hrun]
    by (eexists; vm_compute; reflexivity).
  rewrite Hrun. f_equal.
  apply (failed_request_changes_nothing Sample.columns 100 7 1
           (EventsApi.mkRequest ∅ [2] [1]) 1 Sample.db EventsApi.impact_only db').
  left. exact Hrun.
Defined.

(** ** Plain updates *)

Section plain_update.
Import EventsApi.



End plain_update.

(** ** Associations *)

Lemma elem_of_Event_tag_ids db event_id id :
  id ∈ Event_tag_ids db event_id ↔
  (event_id, id) ∈ events_tags db ∧ id ∈ Tag.id <$> tags db.
Proof.
  unfold Event_tag_ids, Event_tags. rewrite list_elem_of_fmap. split.
  - intros (t & -> & Ht). apply list_elem_of_bind in Ht as ([ev tg] & Ht & Hr).
    simpl in Ht. case_bool_decide; [|by apply elem_of_nil in Ht]. subst ev.
    apply list_elem_of_filter in Ht as [<- Ht]. split; [done|].
    by apply list_elem_of_fmap_2.
  - intros [Hr Ht]. apply list_elem_of_fmap in Ht as (t & -> & Ht).
    exists t. split; [done|]. apply list_elem_of_bind.
    exists (event_id, Tag.id t). split; [|done]. simpl.
    rewrite bool_decide_eq_true_2 by done. by apply list_elem_of_filter.
Qed.

Lemma elem_of_Event_thing_ids db event_id id :
  id ∈ Event_thing_ids db event_id ↔
  (id, event_id) ∈ things_events db ∧ id ∈ Thing.id <$> things db.
Proof.
  unfold Event_thing_ids, Event_things. rewrite list_elem_of_fmap. split.
  - intros (t & -> & Ht). apply list_elem_of_bind in Ht as ([th ev] & Ht & Hr).
    simpl in Ht. case_bool_decide; [|by apply elem_of_nil in Ht]. subst ev.
    apply list_elem_of_filter in Ht as [<- Ht]. split; [done|].
    by apply list_elem_of_fmap_2.
  - intros [Hr Ht]. apply list_elem_of_fmap in Ht as (t & -> & Ht).
    exists t. split; [done|]. apply list_elem_of_bind.
    exists (Thing.id t, event_id). split; [|done]. simpl.
    rewrite bool_decide_eq_true_2 by done. by apply list_elem_of_filter.
Qed.

(** What [if tag.id not in e.tag_ids: e.tags.append(tag)] does to the
    database, and the same for a thing. *)
Definition add_tag_row (event_id : Z) (tag : Tag.t) (db : Db) : Db :=
  if bool_decide (Tag.id tag ∉ Event_tag_ids db event_id)
  then set_events_tags (λ rows, (rows ++ [(event_id, Tag.id tag)])%list) db
  else db.

Definition add_thing_row (event_id : Z) (thing : Thing.t) (db : Db) : Db :=
  if bool_decide (Thing.id thing ∉ Event_thing_ids db event_id)
  then set_things_events (λ rows, (rows ++ [(Thing.id thing, event_id)])%list) db
  else db.

(** One database extends another: the same rows, and association rows
    appended without repeating a row. *)
Record extends (db db' : Db) : Prop := {
  extends_events : events db' = events db;
  extends_tags : tags db' = tags db;
  extends_things : things db' = things db;
  extends_events_tags : ∃ more, events_tags db' = (events_tags db ++ more)%list;
  extends_things_events : ∃ more, things_events db' = (things_events db ++ more)%list;
  extends_NoDup_tags : NoDup (events_tags db) → NoDup (events_tags db');
  extends_NoDup_things : NoDup (things_events db) → NoDup (things_events db')
}.

Lemma extends_refl db : extends db db.
Proof. split; try done; exists []; by rewrite app_nil_r. Qed.

Lemma extends_trans db1 db2 db3 : extends db1 db2 → extends db2 db3 → extends db1 db3.
Proof.
  intros [E1 T1 H1 [m1 R1] [n1 S1] N1 M1] [E2 T2 H2 [m2 R2] [n2 S2] N2 M2].
  split; try congruence; auto.
  - exists (m1 ++ m2)%list. by rewrite R2, R1, app_assoc.
  - exists (n1 ++ n2)%list. by rewrite S2, S1, app_assoc.
Qed.

Lemma extends_tag_ids db db' event_id id :
  extends db db' → id ∈ Event_tag_ids db event_id → id ∈ Event_tag_ids db' event_id.
Proof.
  intros [_ T _ [m R] _ _ _]. rewrite !elem_of_Event_tag_ids, T, R.
  intros [? ?]. split; [|done]. apply elem_of_app. by left.
Qed.

Lemma extends_thing_ids db db' event_id id :
  extends db db' → id ∈ Event_thing_ids db event_id → id ∈ Event_thing_ids db' event_id.
Proof.
  intros [_ _ T _ [m R] _ _]. rewrite !elem_of_Event_thing_ids, T, R.
  intros [? ?]. split; [|done]. apply elem_of_app. by left.
Qed.

Lemma add_tag_row_extends event_id tag db :
  tag ∈ tags db → extends db (add_tag_row event_id tag db).
Proof.
  intros Htag. unfold add_tag_row. case_bool_decide as Hid; [|apply extends_refl].
  split; simpl; try done.
  - by eexists.
  - exists []. by rewrite app_nil_r.
  - intros Hnd. apply NoDup_app. split_and!; [done| |apply NoDup_singleton].
    intros r Hr Hr'. apply list_elem_of_singleton in Hr' as ->.
    apply Hid, elem_of_Event_tag_ids. split; [done|]. by apply list_elem_of_fmap_2.
Qed.

Lemma add_thing_row_extends event_id thing db :
  thing ∈ things db → extends db (add_thing_row event_id thing db).
Proof.
  intros Hthing. unfold add_thing_row. case_bool_decide as Hid; [|apply extends_refl].
  split; simpl; try done.
  - exists []. by rewrite app_nil_r.
  - by eexists.
  - intros Hnd. apply NoDup_app. split_and!; [done| |apply NoDup_singleton].
    intros r Hr Hr'. apply list_elem_of_singleton in Hr' as ->.
    apply Hid, elem_of_Event_thing_ids. split; [done|]. by apply list_elem_of_fmap_2.
Qed.

Lemma add_tag_row_elem event_id tag db :
  tag ∈ tags db → Tag.id tag ∈ Event_tag_ids (add_tag_row event_id tag db) event_id.
Proof.
  intros Htag. unfold add_tag_row. case_bool_decide as Hid.
  - apply elem_of_Event_tag_ids. simpl. split; [|by apply list_elem_of_fmap_2].
    apply elem_of_app. right. by apply list_elem_of_singleton.
  - done.
Qed.

Lemma add_thing_row_elem event_id thing db :
  thing ∈ things db →
  Thing.id thing ∈ Event_thing_ids (add_thing_row event_id thing db) event_id.
Proof.
  intros Hthing. unfold add_thing_row. case_bool_decide as Hid.
  - apply elem_of_Event_thing_ids. simpl. split; [|by apply list_elem_of_fmap_2].
    apply elem_of_app. right. by apply list_elem_of_singleton.
  - done.
Qed.
